(** * Sales reports backend: schema constraints and the orders report

    A shallow embedding of the three SQLAlchemy table models under
    [backend/app/models] (customers, orders, order_items), of the relational
    store that enforces what those models declare, of the report aggregator
    behind [GET /orders/report], and of the end-to-end test
    [backend/tests/test_sales_reports_e2e.py].

    Conventions.
    - A Python [int] is a [Z]; a Python [str] is a [string], one character per
      element; a timestamp is a [Z] (ticks of the server clock).
    - A finite Python [Decimal] is a coefficient and an exponent; a stored
      [Numeric(10, 2)] value is its unscaled integer at scale 2 (the amount in
      hundredths), so no binary floating point occurs in the store.
    - A table is the list of its rows in insertion order.
    - An [Integer] column holds any [Z]: the width of the engine's integers
      is not modelled.
    - The store is the relational engine behind SQLAlchemy, which src/ does
      not name.  It is modelled by what the models declare: a write that
      violates a declared type, key or check is rejected and leaves the tables
      as they were (spec section 7), and a [Numeric] value is brought to the
      declared scale before the row is checked and stored. *)

From Stdlib Require Import ZArith QArith Qabs List String Ascii Bool Lia Floats
  DecimalString.
From Stdlib Require DecimalZ.
Import ListNotations.
Open Scope string_scope.
Open Scope list_scope.
Open Scope Z_scope.

(** ** Errors raised by the store and a small error monad *)

Inductive IntegrityError : Type :=
| NotNullViolation (column : string)
| UniqueViolation (constraint : string)
| ForeignKeyViolation (constraint : string)
| CheckViolation (constraint : string)
| StringDataRightTruncation (column : string)
| NumericValueOutOfRange (column : string)
| NoResultFound.

Inductive result (E A : Type) : Type :=
| Ok (a : A)
| Err (e : E).
Arguments Ok {E A} a.
Arguments Err {E A} e.

Definition bind {E A B : Type} (r : result E A) (k : A -> result E B)
  : result E B :=
  match r with
  | Ok a => k a
  | Err e => Err e
  end.

Notation "x <- r ;; k" := (bind r (fun x => k))
  (at level 61, r at next level, right associativity).
Notation "' p <- r ;; k" := (bind r (fun x => match x with p => k end))
  (at level 61, p pattern, r at next level, right associativity).
Notation "r ;;; k" := (bind r (fun _ => k))
  (at level 61, right associativity).

Definition require {E : Type} (b : bool) (e : E) : result E unit :=
  if b then Ok tt else Err e.

(** The outcome of a statement sent to the store. *)
Definition sql (A : Type) : Type := result IntegrityError A.

(** ** Column types *)

(** [nullable=False]: a missing value is refused. *)
Definition not_null {A : Type} (column : string) (v : option A) : sql A :=
  match v with
  | Some a => Ok a
  | None => Err (NotNullViolation column)
  end.

(** [String(n)]: a character string of at most [n] characters. *)
Definition String_ (n : nat) (column : string) (s : string) : sql string :=
  if (String.length s <=? n)%nat then Ok s
  else Err (StringDataRightTruncation column).

(** A nullable column checks its value only when there is one. *)
Definition nullable {A : Type} (check : A -> sql A) (v : option A)
  : sql (option A) :=
  match v with
  | None => Ok None
  | Some a => a' <- check a ;; Ok (Some a')
  end.

(** A finite Python [Decimal]: the number [coefficient * 10 ^ exponent]. *)
Record Decimal : Type := mkDecimal { coefficient : Z; exponent : Z }.

(** Nearest integer to [n / d] for [0 < d], ties away from zero. *)
Definition round_half_away (n d : Z) : Z :=
  Z.sgn n * ((2 * Z.abs n + d) / (2 * d)).

(** The unscaled integer of [x] at scale [s]: [x * 10 ^ s], rounded when [x]
    has more than [s] fractional digits. *)
Definition rescale (s : Z) (x : Decimal) : Z :=
  let e := exponent x + s in
  if 0 <=? e then coefficient x * 10 ^ e
  else round_half_away (coefficient x) (10 ^ (- e)).

(** [Numeric(p, s)]: an exact decimal of at most [p] digits, [s] of them after
    the point.  The value is brought to scale [s] and refused when it needs
    more than [p] digits. *)
Definition Numeric (p s : Z) (column : string) (x : Decimal) : sql Z :=
  let u := rescale s x in
  if Z.abs u <? 10 ^ p then Ok u else Err (NumericValueOutOfRange column).

(** What a foreign key does to the referencing rows when the row they
    reference is deleted. *)
Inductive OnDelete : Type := CASCADE | NO_ACTION | SET_NULL.

(** ** The three tables *)

(** [models/customer.py]. *)
Module Customer.
Record row : Type := mk
  { id : Z;
    name : string;
    email : string;
    company : option string;
    created_at : Z }.

(** The keyword arguments of [Customer(...)]: any of them may be absent. *)
Record values : Type := new
  { id_ : option Z;
    name_ : option string;
    email_ : option string;
    company_ : option string;
    created_at_ : option Z }.

Definition name_length : nat := 100.
Definition email_length : nat := 255.
Definition company_length : nat := 100.
End Customer.

(** [models/order.py]. *)
Module Order.
Record row : Type := mk
  { id : Z;
    customer_id : Z;
    order_date : Z;
    status : string;
    notes : option string }.

Record values : Type := new
  { id_ : option Z;
    customer_id_ : option Z;
    order_date_ : option Z;
    status_ : option string;
    notes_ : option string }.

Definition status_length : nat := 20.

(** [ForeignKey("customers.id", ondelete="CASCADE")]. *)
Definition customer_id_ondelete : OnDelete := CASCADE.

(** [CheckConstraint("status IN ('pending', 'processing', 'shipped',
    'delivered', 'cancelled')", name="check_status_values")]. *)
Definition status_values : list string :=
  ["pending"; "processing"; "shipped"; "delivered"; "cancelled"].

Definition check_status_values (status : string) : bool :=
  existsb (String.eqb status) status_values.
End Order.

(** [models/order_item.py]. *)
Module OrderItem.
Record row : Type := mk
  { id : Z;
    order_id : Z;
    product_name : string;
    quantity : Z;
    unit_price : Z }.

Record values : Type := new
  { id_ : option Z;
    order_id_ : option Z;
    product_name_ : option string;
    quantity_ : option Z;
    unit_price_ : option Decimal }.

Definition product_name_length : nat := 200.
Definition unit_price_precision : Z := 10.
Definition unit_price_scale : Z := 2.

(** [ForeignKey("orders.id", ondelete="CASCADE")]. *)
Definition order_id_ondelete : OnDelete := CASCADE.

(** [CheckConstraint("quantity > 0", name="check_positive_quantity")]. *)
Definition check_positive_quantity (quantity : Z) : bool := 0 <? quantity.

(** [CheckConstraint("unit_price >= 0", name="check_non_negative_price")],
    on the value of the column. *)
Definition check_non_negative_price (unit_price : Z) : bool :=
  0 <=? unit_price.
End OrderItem.

(** The amount a stored [unit_price] stands for. *)
Definition unit_price_value (i : OrderItem.row) : Q :=
  OrderItem.unit_price i # 100.

(** ** The store *)

Record DB : Type := mkDB
  { customers : list Customer.row;
    orders : list Order.row;
    order_items : list OrderItem.row;
    customers_id_seq : Z;
    orders_id_seq : Z;
    order_items_id_seq : Z }.

Definition empty_db : DB := mkDB [] [] [] 1 1 1.

(** A surrogate key left out of the insert is drawn from the table's
    sequence, which then advances. *)
Definition next_id (given : option Z) (seq : Z) : Z * Z :=
  match given with
  | Some i => (i, seq)
  | None => (seq, seq + 1)
  end.

(** [server_default=func.now()]. *)
Definition server_default (given : option Z) (now : Z) : Z :=
  match given with
  | Some t => t
  | None => now
  end.

Definition customer_ids (db : DB) : list Z := map Customer.id (customers db).
Definition customer_emails (db : DB) : list string :=
  map Customer.email (customers db).
Definition order_ids (db : DB) : list Z := map Order.id (orders db).
Definition order_item_ids (db : DB) : list Z :=
  map OrderItem.id (order_items db).

Definition mem_Z (x : Z) (l : list Z) : bool := existsb (Z.eqb x) l.
Definition mem_string (x : string) (l : list string) : bool :=
  existsb (String.eqb x) l.

(** [INSERT INTO customers]. *)
Definition insert_customer (now : Z) (v : Customer.values) (db : DB)
  : sql DB :=
  name <- not_null "name" (Customer.name_ v) ;;
  name <- String_ Customer.name_length "name" name ;;
  email <- not_null "email" (Customer.email_ v) ;;
  email <- String_ Customer.email_length "email" email ;;
  company <- nullable (String_ Customer.company_length "company")
               (Customer.company_ v) ;;
  let created_at := server_default (Customer.created_at_ v) now in
  let '(id, seq) := next_id (Customer.id_ v) (customers_id_seq db) in
  require (negb (mem_Z id (customer_ids db)))
          (UniqueViolation "customers_pkey") ;;;
  require (negb (mem_string email (customer_emails db)))
          (UniqueViolation "customers_email_key") ;;;
  Ok (mkDB (customers db ++ [Customer.mk id name email company created_at])
           (orders db) (order_items db)
           seq (orders_id_seq db) (order_items_id_seq db)).

(** [INSERT INTO orders]. *)
Definition insert_order (now : Z) (v : Order.values) (db : DB) : sql DB :=
  customer_id <- not_null "customer_id" (Order.customer_id_ v) ;;
  status <- not_null "status" (Order.status_ v) ;;
  status <- String_ Order.status_length "status" status ;;
  let order_date := server_default (Order.order_date_ v) now in
  let '(id, seq) := next_id (Order.id_ v) (orders_id_seq db) in
  require (Order.check_status_values status)
          (CheckViolation "check_status_values") ;;;
  require (negb (mem_Z id (order_ids db)))
          (UniqueViolation "orders_pkey") ;;;
  require (mem_Z customer_id (customer_ids db))
          (ForeignKeyViolation "orders_customer_id_fkey") ;;;
  Ok (mkDB (customers db)
           (orders db ++ [Order.mk id customer_id order_date status
                                   (Order.notes_ v)])
           (order_items db)
           (customers_id_seq db) seq (order_items_id_seq db)).

(** [INSERT INTO order_items]. *)
Definition insert_order_item (v : OrderItem.values) (db : DB) : sql DB :=
  order_id <- not_null "order_id" (OrderItem.order_id_ v) ;;
  product_name <- not_null "product_name" (OrderItem.product_name_ v) ;;
  product_name <- String_ OrderItem.product_name_length "product_name"
                    product_name ;;
  quantity <- not_null "quantity" (OrderItem.quantity_ v) ;;
  unit_price <- not_null "unit_price" (OrderItem.unit_price_ v) ;;
  unit_price <- Numeric OrderItem.unit_price_precision
                  OrderItem.unit_price_scale "unit_price" unit_price ;;
  let '(id, seq) := next_id (OrderItem.id_ v) (order_items_id_seq db) in
  require (OrderItem.check_positive_quantity quantity)
          (CheckViolation "check_positive_quantity") ;;;
  require (OrderItem.check_non_negative_price unit_price)
          (CheckViolation "check_non_negative_price") ;;;
  require (negb (mem_Z id (order_item_ids db)))
          (UniqueViolation "order_items_pkey") ;;;
  require (mem_Z order_id (order_ids db))
          (ForeignKeyViolation "order_items_order_id_fkey") ;;;
  Ok (mkDB (customers db) (orders db)
           (order_items db
              ++ [OrderItem.mk id order_id product_name quantity unit_price])
           (customers_id_seq db) (orders_id_seq db) seq).

(** What the store does to the rows of a referencing table when rows they
    reference are deleted; [refs r] says that [r] references a deleted row.
    Both foreign-key columns of this schema are [nullable=False], so
    [SET_NULL] could only fail. *)
Definition on_parent_delete {R : Type} (action : OnDelete)
    (constraint column : string) (refs : R -> bool) (children : list R)
  : sql (list R * list R) :=
  match action with
  | CASCADE =>
      Ok (filter refs children, filter (fun r => negb (refs r)) children)
  | NO_ACTION =>
      if existsb refs children then Err (ForeignKeyViolation constraint)
      else Ok ([], children)
  | SET_NULL =>
      if existsb refs children then Err (NotNullViolation column)
      else Ok ([], children)
  end.

(** [DELETE FROM order_items WHERE p]. *)
Definition delete_order_items_where (p : OrderItem.row -> bool) (db : DB)
  : sql DB :=
  Ok (mkDB (customers db) (orders db)
           (filter (fun r => negb (p r)) (order_items db))
           (customers_id_seq db) (orders_id_seq db) (order_items_id_seq db)).

(** Deleting the orders [doomed], whether asked for or cascaded to: the
    foreign key of order_items acts on the items that reference them. *)
Definition drop_orders (doomed kept : list Order.row) (db : DB) : sql DB :=
  let refs (i : OrderItem.row) :=
    mem_Z (OrderItem.order_id i) (map Order.id doomed) in
  '(_, items) <- on_parent_delete OrderItem.order_id_ondelete
                   "order_items_order_id_fkey" "order_id" refs
                   (order_items db) ;;
  Ok (mkDB (customers db) kept items
           (customers_id_seq db) (orders_id_seq db) (order_items_id_seq db)).

(** [DELETE FROM orders WHERE p]. *)
Definition delete_orders_where (p : Order.row -> bool) (db : DB) : sql DB :=
  drop_orders (filter p (orders db))
              (filter (fun r => negb (p r)) (orders db)) db.

(** [DELETE FROM customers WHERE p]: the foreign key of orders acts on the
    orders that reference a deleted customer, and deleting those orders acts
    on their items in turn. *)
Definition delete_customers_where (p : Customer.row -> bool) (db : DB)
  : sql DB :=
  let doomed := filter p (customers db) in
  let kept := filter (fun r => negb (p r)) (customers db) in
  let refs (o : Order.row) :=
    mem_Z (Order.customer_id o) (map Customer.id doomed) in
  '(doomed_orders, kept_orders) <-
     on_parent_delete Order.customer_id_ondelete
       "orders_customer_id_fkey" "customer_id" refs (orders db) ;;
  db1 <- drop_orders doomed_orders kept_orders db ;;
  Ok (mkDB kept (orders db1) (order_items db1)
           (customers_id_seq db1) (orders_id_seq db1)
           (order_items_id_seq db1)).

Definition delete_customer (id : Z) : DB -> sql DB :=
  delete_customers_where (fun c => Customer.id c =? id).
Definition delete_order (id : Z) : DB -> sql DB :=
  delete_orders_where (fun o => Order.id o =? id).
Definition delete_order_item (id : Z) : DB -> sql DB :=
  delete_order_items_where (fun i => OrderItem.id i =? id).

(** The writes a client can ask of the store.  The models define no update. *)
Inductive request : Type :=
| InsertCustomer (now : Z) (v : Customer.values)
| InsertOrder (now : Z) (v : Order.values)
| InsertOrderItem (v : OrderItem.values)
| DeleteCustomer (id : Z)
| DeleteOrder (id : Z)
| DeleteOrderItem (id : Z).

Definition exec (r : request) (db : DB) : sql DB :=
  match r with
  | InsertCustomer now v => insert_customer now v db
  | InsertOrder now v => insert_order now v db
  | InsertOrderItem v => insert_order_item v db
  | DeleteCustomer id => delete_customer id db
  | DeleteOrder id => delete_order id db
  | DeleteOrderItem id => delete_order_item id db
  end.

(** A failed request leaves the store as it was. *)
Definition apply (db : DB) (r : request) : DB :=
  match exec r db with
  | Ok db' => db'
  | Err _ => db
  end.

Definition run (rs : list request) (db : DB) : DB := fold_left apply rs db.

(** The datasets that can exist: what requests build from the empty store. *)
Inductive reachable : DB -> Prop :=
| reachable_empty : reachable empty_db
| reachable_exec (db db' : DB) (r : request) :
    reachable db -> exec r db = Ok db' -> reachable db'.

(** ** The report aggregator and its endpoint *)

(** Modelled from the spec: one entry of the report array (section 4.2),
    whose declaration is not under src/; [total] is in hundredths, as
    [unit_price] is. *)
Record report_entry : Type := mkEntry
  { order_id : Z;
    customer_name : string;
    item_count : Z;
    order_date : Z;
    status : string;
    total : Z }.

(** Modelled from the spec: the execution metadata of a report (section
    4.2), whose declaration is not under src/. *)
Record report_metadata : Type := mkMetadata
  { total_orders : Z;
    execution_time_ms : Z;
    query_count : Z }.

(** Modelled from the spec: the aggregator's output (section 4.2), whose
    declaration is not under src/. *)
Record report_response : Type := mkResponse
  { report : list report_entry;
    metadata : report_metadata }.

(** Modelled from the spec: a storage round trip as the aggregator counts
    them (section 4.2), absent from src/: the answer, and one more query. *)
Definition query {A : Type} (q : DB -> A) (db : DB) (count : Z) : A * Z :=
  (q db, count + 1).

(** Modelled from the spec: the relationship traversal [Order.customer]
    (section 4.1), whose loading code is not under src/. *)
Definition related_customer (o : Order.row) (db : DB)
  : option Customer.row :=
  find (fun c => Customer.id c =? Order.customer_id o) (customers db).

(** Modelled from the spec: the relationship traversal [Order.items]
    (section 4.1), whose loading code is not under src/. *)
Definition related_items (o : Order.row) (db : DB) : list OrderItem.row :=
  filter (fun i => OrderItem.order_id i =? Order.id o) (order_items db).

(** Modelled from the spec: the per-order part of the report aggregator
    (section 4.2), absent from src/: item count and running total over the
    order's items, customer name through the related customer, at the cost of
    one more round trip per order. *)
Definition order_summary (o : Order.row) (db : DB) (count : Z)
  : sql (report_entry * Z) :=
  let '((customer, items), count) :=
    query (fun db => (related_customer o db, related_items o db)) db count in
  match customer with
  | None => Err NoResultFound
  | Some c =>
      let total :=
        fold_left
          (fun acc i => acc + OrderItem.quantity i * OrderItem.unit_price i)
          items 0 in
      Ok (mkEntry (Order.id o) (Customer.name c) (Z.of_nat (List.length items))
                  (Order.order_date o) (Order.status o) total,
          count)
  end.

(** Modelled from the spec: the aggregator's loop over the orders it listed
    (section 4.2), absent from src/. *)
Fixpoint summarize (os : list Order.row) (db : DB) (count : Z)
  : sql (list report_entry * Z) :=
  match os with
  | [] => Ok ([], count)
  | o :: os' =>
      '(e, count) <- order_summary o db count ;;
      '(es, count) <- summarize os' db count ;;
      Ok (e :: es, count)
  end.

(** Modelled from the spec: the report aggregator (section 4.2), absent from
    src/: one query lists the orders, each order is then summarized, and the
    metadata records the number of orders read, the elapsed time handed in by
    the caller's clock and the number of round trips. *)
Definition orders_report (elapsed_ms : Z) (db : DB) : sql report_response :=
  let '(os, count) := query orders db 0 in
  '(entries, count) <- summarize os db count ;;
  Ok (mkResponse entries
        (mkMetadata (Z.of_nat (List.length os)) elapsed_ms count)).

(** Modelled from the spec: the HTTP surface (section 4.3), absent from
    src/: [GET /orders/report] answers 200 with the aggregator's output, and
    a server error when the aggregator fails. *)
Definition GET_orders_report (elapsed_ms : Z) (db : DB)
  : Z * option report_response :=
  match orders_report elapsed_ms db with
  | Ok r => (200, Some r)
  | Err _ => (500, None)
  end.

(** The sum of quantity times unit price over [items], as the spec words
    the [total] of an order. *)
Definition items_total (items : list OrderItem.row) : Z :=
  fold_right Z.add 0
    (map (fun i => OrderItem.quantity i * OrderItem.unit_price i) items).

(** ** The end-to-end test, [tests/test_sales_reports_e2e.py] *)

(** The Python values [response.json()] can return. *)
#[warnings="-register-all"]
Inductive py : Type :=
| PyNone
| PyBool (b : bool)
| PyInt (z : Z)
| PyFloat (f : float)
| PyStr (s : string)
| PyList (l : list py)
| PyDict (d : list (string * py)).

Inductive exn : Type :=
| AssertionError (msg : string)
| TypeError
| KeyError (key : string)
| IndexError
| JSONDecodeError.

(** What [client.get] returned; [json] is [None] when the body does not
    parse. *)
Record Response : Type := mkHTTP
  { status_code : Z;
    text : string;
    json : option py }.

Definition assert (b : bool) (msg : string) : result exn unit :=
  require b (AssertionError msg).

Definition response_json (response : Response) : result exn py :=
  match json response with
  | Some v => Ok v
  | None => Err JSONDecodeError
  end.

(** [key in container], for a string [key]. *)
Definition py_in (key : string) (container : py) : result exn bool :=
  match container with
  | PyDict d => Ok (existsb (fun kv => String.eqb key (fst kv)) d)
  | PyList l =>
      Ok (existsb (fun v => match v with
                            | PyStr s => String.eqb key s
                            | _ => false
                            end) l)
  | PyStr s => Ok (match String.index 0 key s with
                   | Some _ => true
                   | None => false
                   end)
  | _ => Err TypeError
  end.

(** [container[key]], for a string [key]. *)
Definition py_getitem (container : py) (key : string) : result exn py :=
  match container with
  | PyDict d =>
      match find (fun kv => String.eqb key (fst kv)) d with
      | Some kv => Ok (snd kv)
      | None => Err (KeyError key)
      end
  | _ => Err TypeError
  end.

(** [l[0]] of a list. *)
Definition py_first (l : py) : result exn py :=
  match l with
  | PyList (v :: _) => Ok v
  | PyList [] => Err IndexError
  | _ => Err TypeError
  end.

Definition py_len (v : py) : result exn Z :=
  match v with
  | PyStr s => Ok (Z.of_nat (String.length s))
  | PyList l => Ok (Z.of_nat (List.length l))
  | PyDict d => Ok (Z.of_nat (List.length d))
  | _ => Err TypeError
  end.

(** [isinstance(v, int)]: [bool] is a subclass of [int]. *)
Definition isinstance_int (v : py) : bool :=
  match v with
  | PyInt _ | PyBool _ => true
  | _ => false
  end.

Definition isinstance_str (v : py) : bool :=
  match v with
  | PyStr _ => true
  | _ => false
  end.

Definition isinstance_list (v : py) : bool :=
  match v with
  | PyList _ => true
  | _ => false
  end.

(** [isinstance(v, (int, float))]. *)
Definition isinstance_int_float (v : py) : bool :=
  match v with
  | PyInt _ | PyBool _ | PyFloat _ => true
  | _ => false
  end.

(** The integer an [int] (or [bool]) compares as. *)
Definition int_value (v : py) : result exn Z :=
  match v with
  | PyInt z => Ok z
  | PyBool b => Ok (if b then 1 else 0)
  | _ => Err TypeError
  end.

(** [v >= 0] for a number. *)
Definition py_ge_0 (v : py) : result exn bool :=
  match v with
  | PyFloat f => Ok (PrimFloat.leb 0%float f)
  | _ => z <- int_value v ;; Ok (0 <=? z)
  end.

Definition str_int (z : Z) : string := NilZero.string_of_int (Z.to_int z).

Definition assert_in (key : string) (container : py) (msg : string)
  : result exn unit :=
  b <- py_in key container ;; assert b msg.

Definition assert_isinstance (test : py -> bool) (container : py)
    (key msg : string) : result exn unit :=
  v <- py_getitem container key ;; assert (test v) msg.

(** [test_orders_report_endpoint_e2e], assertion by assertion; the [print]
    calls, which only write to the console, are left out.  [Ok tt] is a
    passed test, [Err e] the exception that failed it. *)
Definition test_orders_report_endpoint_e2e (response : Response)
  : result exn unit :=
  assert (status_code response =? 200)
         ("Expected 200, got " ++ str_int (status_code response)) ;;;
  data <- response_json response ;;
  assert_in "report" data "Missing report in response" ;;;
  assert_in "metadata" data "Missing metadata in response" ;;;
  report <- py_getitem data "report" ;;
  assert (isinstance_list report) "Report should be a list" ;;;
  n <- py_len report ;;
  assert (0 <? n) "Should return at least one order" ;;;
  first_order <- py_first report ;;
  assert_in "order_id" first_order "Missing order_id in order" ;;;
  assert_in "customer_name" first_order "Missing customer_name in order" ;;;
  assert_in "item_count" first_order "Missing item_count in order" ;;;
  assert_in "order_date" first_order "Missing order_date in order" ;;;
  assert_in "status" first_order "Missing status in order" ;;;
  assert_in "total" first_order "Missing total in order" ;;;
  assert_isinstance isinstance_int first_order "order_id"
    "order_id should be an integer" ;;;
  assert_isinstance isinstance_str first_order "customer_name"
    "customer_name should be a string" ;;;
  assert_isinstance isinstance_int first_order "item_count"
    "item_count should be an integer" ;;;
  assert_isinstance isinstance_str first_order "status"
    "status should be a string" ;;;
  assert_isinstance isinstance_int_float first_order "total"
    "total should be a number" ;;;
  customer_name <- py_getitem first_order "customer_name" ;;
  name_len <- py_len customer_name ;;
  assert (0 <? name_len) "customer_name should not be empty" ;;;
  item_count <- py_getitem first_order "item_count" ;;
  item_count <- int_value item_count ;;
  assert (0 <? item_count) "item_count should be positive" ;;;
  metadata <- py_getitem data "metadata" ;;
  assert_in "total_orders" metadata "Missing total_orders in metadata" ;;;
  assert_in "execution_time_ms" metadata
    "Missing execution_time_ms in metadata" ;;;
  assert_in "query_count" metadata "Missing query_count in metadata" ;;;
  assert_isinstance isinstance_int metadata "total_orders"
    "total_orders should be an integer" ;;;
  assert_isinstance isinstance_int_float metadata "execution_time_ms"
    "execution_time_ms should be a number" ;;;
  assert_isinstance isinstance_int metadata "query_count"
    "query_count should be an integer" ;;;
  total_orders <- py_getitem metadata "total_orders" ;;
  total_orders <- int_value total_orders ;;
  assert (total_orders =? n) "total_orders should match report length" ;;;
  execution_time_ms <- py_getitem metadata "execution_time_ms" ;;
  nonneg <- py_ge_0 execution_time_ms ;;
  assert nonneg "execution_time_ms should be non-negative" ;;;
  query_count <- py_getitem metadata "query_count" ;;
  query_count <- int_value query_count ;;
  assert (0 <? query_count)
         "query_count should be positive (N+1 problem visible)" ;;;
  Ok tt.

(** What the assertions on the metadata read from a response. *)
Definition response_metadata (response : Response) (key : string)
  : result exn Z :=
  data <- response_json response ;;
  metadata <- py_getitem data "metadata" ;;
  v <- py_getitem metadata key ;;
  int_value v.

Definition response_report_length (response : Response) : result exn Z :=
  data <- response_json response ;;
  report <- py_getitem data "report" ;;
  py_len report.

(** ** Invariants of the store *)

Definition customer_ok (c : Customer.row) : Prop :=
  (String.length (Customer.name c) <= Customer.name_length)%nat
  /\ (String.length (Customer.email c) <= Customer.email_length)%nat
  /\ (forall s, Customer.company c = Some s ->
                (String.length s <= Customer.company_length)%nat).

Definition order_ok (o : Order.row) : Prop :=
  In (Order.status o) Order.status_values
  /\ (String.length (Order.status o) <= Order.status_length)%nat.

Definition order_item_ok (i : OrderItem.row) : Prop :=
  (String.length (OrderItem.product_name i)
   <= OrderItem.product_name_length)%nat
  /\ 0 < OrderItem.quantity i
  /\ 0 <= OrderItem.unit_price i < 10 ^ OrderItem.unit_price_precision.

(** Referential integrity: no order without its customer, no item without
    its order. *)
Definition fk_ok (db : DB) : Prop :=
  (forall o, In o (orders db) -> In (Order.customer_id o) (customer_ids db))
  /\ (forall i, In i (order_items db) ->
                In (OrderItem.order_id i) (order_ids db)).

Record consistent (db : DB) : Prop := mkConsistent
  { customers_pkey : NoDup (customer_ids db);
    orders_pkey : NoDup (order_ids db);
    order_items_pkey : NoDup (order_item_ids db);
    customers_email_key : NoDup (customer_emails db);
    foreign_keys : fk_ok db;
    customers_ok : Forall customer_ok (customers db);
    orders_ok : Forall order_ok (orders db);
    order_items_ok : Forall order_item_ok (order_items db) }.

(** What the report says of order [o], stated on the tables. *)
Definition summarizes (db : DB) (o : Order.row) (e : report_entry) : Prop :=
  order_id e = Order.id o
  /\ (exists c, In c (customers db)
                /\ Customer.id c = Order.customer_id o)
  /\ (forall c, In c (customers db) ->
                Customer.id c = Order.customer_id o ->
                customer_name e = Customer.name c)
  /\ item_count e = Z.of_nat (List.length (related_items o db))
  /\ total e = items_total (related_items o db)
  /\ order_date e = Order.order_date o
  /\ status e = Order.status o.

(** ** Sample data *)

Definition ada : Customer.values :=
  Customer.new None (Some "Ada") (Some "ada@example.com") None None.

Definition order_for (customer_id : Z) (status : string) : Order.values :=
  Order.new None (Some customer_id) None (Some status) None.

Definition item_for (order_id : Z) (product : string) (quantity : Z)
    (unit_price : Decimal) : OrderItem.values :=
  OrderItem.new None (Some order_id) (Some product) (Some quantity)
                (Some unit_price).

(** One customer with two orders: 2 x 19.99 + 1 x 5.00 and 3 x 10.50. *)
Definition two_orders : list request :=
  [ InsertCustomer 1000 ada;
    InsertOrder 1001 (order_for 1 "pending");
    InsertOrderItem (item_for 1 "Widget" 2 (mkDecimal 1999 (-2)));
    InsertOrderItem (item_for 1 "Gadget" 1 (mkDecimal 5 0));
    InsertOrder 1002 (order_for 1 "shipped");
    InsertOrderItem (item_for 2 "Gizmo" 3 (mkDecimal 105 (-1))) ].

Definition two_orders_db : DB := run two_orders empty_db.

(** A customer whose name is the empty string, with an order that has no
    item: every declared constraint holds. *)
Definition bare_order : list request :=
  [ InsertCustomer 1000
      (Customer.new None (Some "") (Some "nobody@example.com") None None);
    InsertOrder 1001 (order_for 1 "pending") ].

Definition bare_order_db : DB := run bare_order empty_db.

Definition metadata_json (total_orders query_count : Z) : py :=
  PyDict [ ("total_orders", PyInt total_orders);
           ("execution_time_ms", PyFloat 12.5%float);
           ("query_count", PyInt query_count) ].

Definition entry_json : py :=
  PyDict [ ("order_id", PyInt 1);
           ("customer_name", PyStr "Ada");
           ("item_count", PyInt 2);
           ("order_date", PyStr "2024-01-01T00:00:00+00:00");
           ("status", PyStr "pending");
           ("total", PyFloat 44.75%float) ].

(** A 200 response with one order whose metadata reports [query_count]. *)
Definition response_with_query_count (query_count : Z) : Response :=
  mkHTTP 200 ""
    (Some (PyDict [ ("report", PyList [entry_json]);
                    ("metadata", metadata_json 1 query_count) ])).

(** A string of [n] characters. *)
Fixpoint padding (n : nat) : string :=
  match n with
  | O => ""
  | S n' => String "x" (padding n')
  end.

(** A second customer using Ada's email address. *)
Definition ada_again : Customer.values :=
  Customer.new None (Some "Ada Lovelace") (Some "ada@example.com") None None.

(** ** String representations of the rows *)

(** [Customer.__repr__], [models/customer.py]:
    [f"<Customer(id={self.id}, name='{self.name}', email='{self.email}')>"]. *)
Definition Customer_repr (c : Customer.row) : string :=
  ("<Customer(id=" ++ str_int (Customer.id c)
   ++ ", name='" ++ Customer.name c
   ++ "', email='" ++ Customer.email c ++ "')>")%string.

(** [Order.__repr__], [models/order.py]. *)
Definition Order_repr (o : Order.row) : string :=
  ("<Order(id=" ++ str_int (Order.id o)
   ++ ", customer_id=" ++ str_int (Order.customer_id o)
   ++ ", status='" ++ Order.status o ++ "')>")%string.

(** [OrderItem.__repr__], [models/order_item.py]. *)
Definition OrderItem_repr (i : OrderItem.row) : string :=
  ("<OrderItem(id=" ++ str_int (OrderItem.id i)
   ++ ", order_id=" ++ str_int (OrderItem.order_id i)
   ++ ", product='" ++ OrderItem.product_name i ++ "')>")%string.

(** The characters [str] of an [int] is made of. *)
Definition number_char (c : ascii) : bool :=
  match String.index 0 (String c "") "-0123456789" with
  | Some _ => true
  | None => false
  end.

Fixpoint all_chars (p : ascii -> bool) (s : string) : bool :=
  match s with
  | EmptyString => true
  | String c s' => p c && all_chars p s'
  end.

(** ** What the end-to-end test accepts, stated on the response *)

(** The value a parsed JSON object holds under [key]. *)
Definition dict_get (d : list (string * py)) (key : string) : option py :=
  match find (fun kv => String.eqb key (fst kv)) d with
  | Some kv => Some (snd kv)
  | None => None
  end.

(** A 200 response whose body is an object with a non-empty [report] list
    and a [metadata] object; the first entry of the report is an object with
    the six fields, of which [order_id] and [item_count] are integers,
    [customer_name] and [status] strings and [total] a number, with a
    non-empty name and a positive item count; and the metadata has
    [total_orders] equal to the length of the report, a non-negative
    [execution_time_ms] and a positive [query_count]. *)
Definition e2e_accepts (response : Response) : Prop :=
  status_code response = 200
  /\ exists data first rest meta,
       json response = Some (PyDict data)
       /\ dict_get data "report" = Some (PyList (PyDict first :: rest))
       /\ dict_get data "metadata" = Some (PyDict meta)
       /\ (exists v, dict_get first "order_id" = Some v
                     /\ isinstance_int v = true)
       /\ (exists s, dict_get first "customer_name" = Some (PyStr s)
                     /\ s <> "")
       /\ (exists v k, dict_get first "item_count" = Some v
                       /\ int_value v = Ok k /\ 0 < k)
       /\ (exists v, dict_get first "order_date" = Some v)
       /\ (exists s, dict_get first "status" = Some (PyStr s))
       /\ (exists v, dict_get first "total" = Some v
                     /\ isinstance_int_float v = true)
       /\ (exists v, dict_get meta "total_orders" = Some v
                     /\ int_value v
                        = Ok (Z.of_nat (S (List.length rest))))
       /\ (exists v, dict_get meta "execution_time_ms" = Some v
                     /\ py_ge_0 v = Ok true)
       /\ (exists v k, dict_get meta "query_count" = Some v
                       /\ int_value v = Ok k /\ 0 < k).

(** A 200 response whose body is the object [pre ++ ("report", report) ::
    post]. *)
Definition response_with_report (pre post : list (string * py))
    (report : py) : Response :=
  mkHTTP 200 "" (Some (PyDict (pre ++ ("report", report) :: post))).

(** ** The other direction of the relationships *)

(** [Customer.orders], [relationship("Order", back_populates="customer")]:
    the orders whose [customer_id] is the customer's key. *)
Definition Customer_orders (c : Customer.row) (db : DB) : list Order.row :=
  filter (fun o => Order.customer_id o =? Customer.id c) (orders db).

(** [OrderItem.order], [relationship("Order", back_populates="items")]: the
    order whose key is the item's [order_id]. *)
Definition OrderItem_order (i : OrderItem.row) (db : DB) : option Order.row :=
  find (fun o => Order.id o =? OrderItem.order_id i) (orders db).

(** The sum of [f] over a list. *)
Definition sum_over {A : Type} (f : A -> nat) (l : list A) : nat :=
  fold_right (fun x acc => (f x + acc)%nat) 0%nat l.

(** ** Surrogate keys drawn from the sequences *)

(** A request that names no surrogate key of its own. *)
Definition auto_request (r : request) : bool :=
  match r with
  | InsertCustomer _ v =>
      match Customer.id_ v with None => true | Some _ => false end
  | InsertOrder _ v =>
      match Order.id_ v with None => true | Some _ => false end
  | InsertOrderItem v =>
      match OrderItem.id_ v with None => true | Some _ => false end
  | DeleteCustomer _ | DeleteOrder _ | DeleteOrderItem _ => true
  end.

(** Every stored key was drawn from its sequence before. *)
Definition ids_below_seq (db : DB) : Prop :=
  (forall i, In i (customer_ids db) -> i < customers_id_seq db)
  /\ (forall i, In i (order_ids db) -> i < orders_id_seq db)
  /\ (forall i, In i (order_item_ids db) -> i < order_items_id_seq db).

(** * Proofs *)

(** ** The error monad *)

Lemma bind_Ok {E A B : Type} (r : result E A) (k : A -> result E B) (b : B) :
  bind r k = Ok b -> exists a, r = Ok a /\ k a = Ok b.
Proof.
  destruct r as [a | e]; simpl; intros H; [eauto | discriminate].
Qed.

Lemma require_Ok {E : Type} (b : bool) (e : E) (u : unit) :
  require b e = Ok u -> b = true.
Proof. destruct b; simpl; [reflexivity | discriminate]. Qed.

Lemma not_null_Ok {A : Type} (column : string) (v : option A) (a : A) :
  not_null column v = Ok a -> v = Some a.
Proof. destruct v; simpl; congruence. Qed.

Lemma String__Ok (n : nat) (column s s' : string) :
  String_ n column s = Ok s' -> s' = s /\ (String.length s <= n)%nat.
Proof.
  unfold String_.
  destruct (Nat.leb_spec (String.length s) n) as [Hle | Hgt]; intros Hs.
  - injection Hs as <-. auto.
  - discriminate.
Qed.

Lemma String__Err (n : nat) (column s : string) :
  (n < String.length s)%nat ->
  String_ n column s = Err (StringDataRightTruncation column).
Proof.
  unfold String_. intros Hlt.
  destruct (Nat.leb_spec (String.length s) n) as [Hle | Hgt];
    [lia | reflexivity].
Qed.

Lemma nullable_String__Ok (n : nat) (column : string) (v v' : option string) :
  nullable (String_ n column) v = Ok v' ->
  v' = v /\ forall s, v = Some s -> (String.length s <= n)%nat.
Proof.
  destruct v as [s |]; simpl.
  - intros H. apply bind_Ok in H. destruct H as (s' & Hs & H).
    apply String__Ok in Hs. destruct Hs as [-> Hle].
    injection H as <-. split; [reflexivity |].
    intros s0 Hs0. injection Hs0 as <-. exact Hle.
  - intros H. injection H as <-. split; [reflexivity | discriminate].
Qed.

Lemma Numeric_Ok (p s : Z) (column : string) (x : Decimal) (u : Z) :
  Numeric p s column x = Ok u -> u = rescale s x /\ Z.abs u < 10 ^ p.
Proof.
  unfold Numeric.
  destruct (Z.ltb_spec (Z.abs (rescale s x)) (10 ^ p)) as [Hlt | Hge];
    intros Hu; [| discriminate].
  injection Hu as <-. auto.
Qed.

Ltac invert_ok :=
  repeat match goal with
    | H : bind _ _ = Ok _ |- _ =>
        let a := fresh "a" in
        let Ha := fresh "Ha" in
        apply bind_Ok in H; destruct H as (a & Ha & H)
    | H : require _ _ = Ok _ |- _ => apply require_Ok in H
    | H : not_null _ _ = Ok _ |- _ => apply not_null_Ok in H
    | H : String_ _ _ _ = Ok _ |- _ =>
        apply String__Ok in H; destruct H as [-> H]
    | H : nullable (String_ _ _) _ = Ok _ |- _ =>
        apply nullable_String__Ok in H; destruct H as [-> H]
    | H : Numeric _ _ _ _ = Ok _ |- _ =>
        apply Numeric_Ok in H; destruct H as [-> H]
    end.

(** ** Lists *)

Lemma mem_Z_In (x : Z) (l : list Z) : mem_Z x l = true <-> In x l.
Proof.
  unfold mem_Z. rewrite existsb_exists. split.
  - intros (y & Hy & Heq). apply Z.eqb_eq in Heq. now subst.
  - intros H. exists x. split; [assumption | apply Z.eqb_refl].
Qed.

Lemma mem_Z_not_In (x : Z) (l : list Z) : mem_Z x l = false <-> ~ In x l.
Proof.
  rewrite <- mem_Z_In. destruct (mem_Z x l); split; congruence.
Qed.

Lemma mem_string_In (x : string) (l : list string) :
  mem_string x l = true <-> In x l.
Proof.
  unfold mem_string. rewrite existsb_exists. split.
  - intros (y & Hy & Heq). apply String.eqb_eq in Heq. now subst.
  - intros H. exists x. split; [assumption | apply String.eqb_refl].
Qed.

Lemma negb_mem_Z (x : Z) (l : list Z) : negb (mem_Z x l) = true <-> ~ In x l.
Proof. rewrite negb_true_iff. apply mem_Z_not_In. Qed.

Lemma negb_mem_string (x : string) (l : list string) :
  negb (mem_string x l) = true <-> ~ In x l.
Proof.
  rewrite negb_true_iff, <- mem_string_In.
  destruct (mem_string x l); split; congruence.
Qed.

Lemma NoDup_snoc {A : Type} (l : list A) (x : A) :
  NoDup l -> ~ In x l -> NoDup (l ++ [x]).
Proof.
  intros Hl Hx. apply NoDup_app; [assumption | repeat constructor; auto |].
  intros a Ha [<- | []]. contradiction.
Qed.

Lemma NoDup_map_filter {R K : Type} (key : R -> K) (keep : R -> bool)
    (rows : list R) :
  NoDup (map key rows) -> NoDup (map key (filter keep rows)).
Proof.
  intros Hrows. induction rows as [| r rows IH]; simpl; [constructor |].
  simpl in Hrows. apply NoDup_cons_iff in Hrows.
  destruct Hrows as [Hfresh Hrows].
  destruct (keep r); simpl; [| auto].
  constructor; [| auto].
  rewrite in_map_iff. intros (r' & Hkey & Hr').
  apply filter_In in Hr'. apply Hfresh.
  rewrite <- Hkey. apply in_map. tauto.
Qed.

Lemma NoDup_map_inj {A B : Type} (f : A -> B) (l : list A) (a b : A) :
  NoDup (map f l) -> In a l -> In b l -> f a = f b -> a = b.
Proof.
  induction l as [| x l IH]; simpl; intros H Ha Hb Heq; [contradiction |].
  inversion H as [| ? ? Hnotin Hnodup]; subst.
  destruct Ha as [-> | Ha], Hb as [-> | Hb]; auto.
  - exfalso. apply Hnotin. rewrite Heq. now apply in_map.
  - exfalso. apply Hnotin. rewrite <- Heq. now apply in_map.
Qed.

Lemma Forall_snoc {A : Type} (P : A -> Prop) (l : list A) (x : A) :
  Forall P l -> P x -> Forall P (l ++ [x]).
Proof. intros Hl Hx. apply Forall_app. split; auto. Qed.

Lemma Forall_filter {A : Type} (P : A -> Prop) (p : A -> bool) (l : list A) :
  Forall P l -> Forall P (filter p l).
Proof.
  rewrite !Forall_forall. intros H x Hx. apply filter_In in Hx. apply H, Hx.
Qed.

(** A referencing row that survives a cascade still has its parent. *)
Lemma survivor_keeps_parent {P : Type} (pid : P -> Z) (p : P -> bool)
    (parents : list P) (fk : Z) :
  In fk (map pid parents) ->
  ~ In fk (map pid (filter p parents)) ->
  In fk (map pid (filter (fun r => negb (p r)) parents)).
Proof.
  intros Hin Hout. apply in_map_iff in Hin. destruct Hin as (r & <- & Hr).
  apply in_map_iff. exists r. split; [reflexivity |].
  apply filter_In. split; [assumption |].
  destruct (p r) eqn:Hp; [| reflexivity].
  exfalso. apply Hout. apply in_map. apply filter_In. auto.
Qed.

(** ** What an accepted insert did *)

Lemma insert_customer_Ok (now : Z) (v : Customer.values) (db db' : DB) :
  insert_customer now v db = Ok db' ->
  exists c,
    Customer.name_ v = Some (Customer.name c)
    /\ Customer.email_ v = Some (Customer.email c)
    /\ Customer.company_ v = Customer.company c
    /\ customer_ok c
    /\ ~ In (Customer.id c) (customer_ids db)
    /\ ~ In (Customer.email c) (customer_emails db)
    /\ customers db' = customers db ++ [c]
    /\ orders db' = orders db
    /\ order_items db' = order_items db.
Proof.
  unfold insert_customer. intros H. invert_ok.
  destruct (next_id (Customer.id_ v) (customers_id_seq db)) as [id seq].
  invert_ok. injection H as <-.
  match goal with
  | H1 : negb (mem_Z _ _) = true, H2 : negb (mem_string _ _) = true |- _ =>
      apply negb_mem_Z in H1; apply negb_mem_string in H2
  end.
  eexists (Customer.mk id _ _ _ _). simpl.
  repeat split; eauto.
Qed.

Lemma insert_order_Ok (now : Z) (v : Order.values) (db db' : DB) :
  insert_order now v db = Ok db' ->
  exists o,
    Order.customer_id_ v = Some (Order.customer_id o)
    /\ Order.status_ v = Some (Order.status o)
    /\ order_ok o
    /\ ~ In (Order.id o) (order_ids db)
    /\ In (Order.customer_id o) (customer_ids db)
    /\ customers db' = customers db
    /\ orders db' = orders db ++ [o]
    /\ order_items db' = order_items db.
Proof.
  unfold insert_order. intros H. invert_ok.
  destruct (next_id (Order.id_ v) (orders_id_seq db)) as [id seq].
  invert_ok. injection H as <-.
  match goal with
  | H1 : negb (mem_Z _ _) = true, H2 : mem_Z _ _ = true,
    H3 : Order.check_status_values _ = true |- _ =>
      apply negb_mem_Z in H1; apply mem_Z_In in H2;
      apply mem_string_In in H3
  end.
  eexists (Order.mk id _ _ _ _). simpl.
  repeat split; eauto.
Qed.

Lemma insert_order_item_Ok (v : OrderItem.values) (db db' : DB) :
  insert_order_item v db = Ok db' ->
  exists i d,
    OrderItem.order_id_ v = Some (OrderItem.order_id i)
    /\ OrderItem.quantity_ v = Some (OrderItem.quantity i)
    /\ OrderItem.product_name_ v = Some (OrderItem.product_name i)
    /\ OrderItem.unit_price_ v = Some d
    /\ OrderItem.unit_price i = rescale OrderItem.unit_price_scale d
    /\ order_item_ok i
    /\ ~ In (OrderItem.id i) (order_item_ids db)
    /\ In (OrderItem.order_id i) (order_ids db)
    /\ customers db' = customers db
    /\ orders db' = orders db
    /\ order_items db' = order_items db ++ [i].
Proof.
  unfold insert_order_item. intros H. invert_ok.
  destruct (next_id (OrderItem.id_ v) (order_items_id_seq db)) as [id seq].
  invert_ok. injection H as <-.
  match goal with
  | H1 : negb (mem_Z _ _) = true, H2 : mem_Z _ _ = true,
    H3 : OrderItem.check_positive_quantity _ = true,
    H4 : OrderItem.check_non_negative_price _ = true |- _ =>
      apply negb_mem_Z in H1; apply mem_Z_In in H2;
      apply Z.ltb_lt in H3; apply Z.leb_le in H4
  end.
  eexists (OrderItem.mk id _ _ _ _), _. simpl.
  repeat split; eauto; cbn [OrderItem.unit_price]; lia.
Qed.

(** ** What a delete did *)

Lemma delete_order_items_where_Ok (p : OrderItem.row -> bool) (db : DB) :
  exists db',
    delete_order_items_where p db = Ok db'
    /\ customers db' = customers db
    /\ orders db' = orders db
    /\ order_items db' = filter (fun i => negb (p i)) (order_items db).
Proof. eexists. split; [reflexivity |]. simpl. auto. Qed.

Lemma delete_orders_where_Ok (p : Order.row -> bool) (db : DB) :
  exists db',
    delete_orders_where p db = Ok db'
    /\ customers db' = customers db
    /\ orders db' = filter (fun o => negb (p o)) (orders db)
    /\ order_items db'
       = filter (fun i => negb (mem_Z (OrderItem.order_id i)
                                  (map Order.id (filter p (orders db)))))
                (order_items db).
Proof. eexists. split; [reflexivity |]. simpl. auto. Qed.

Lemma delete_customers_where_Ok (p : Customer.row -> bool) (db : DB) :
  exists db',
    delete_customers_where p db = Ok db'
    /\ customers db' = filter (fun c => negb (p c)) (customers db)
    /\ orders db'
       = filter (fun o => negb (mem_Z (Order.customer_id o)
                                  (map Customer.id (filter p (customers db)))))
                (orders db)
    /\ order_items db'
       = filter
           (fun i =>
              negb (mem_Z (OrderItem.order_id i)
                      (map Order.id
                         (filter
                            (fun o =>
                               mem_Z (Order.customer_id o)
                                 (map Customer.id (filter p (customers db))))
                            (orders db)))))
           (order_items db).
Proof. eexists. split; [reflexivity |]. simpl. auto. Qed.

(** ** Every request keeps the store consistent *)

Lemma consistent_empty : consistent empty_db.
Proof.
  split; simpl; try constructor; intros ? [].
Qed.

Lemma consistent_insert_customer (now : Z) (v : Customer.values) (db db' : DB) :
  consistent db -> insert_customer now v db = Ok db' -> consistent db'.
Proof.
  intros [Hc Ho Hi He [Hfo Hfi] Hrc Hro Hri] H.
  apply insert_customer_Ok in H.
  destruct H as (c & _ & _ & _ & Hok & Hid & Hem & Ecs & Eos & Eis).
  split; unfold fk_ok, customer_ids, customer_emails, order_ids,
    order_item_ids in *; rewrite ?Ecs, ?Eos, ?Eis, ?map_app; simpl;
    auto using NoDup_snoc, Forall_snoc.
  split; [| assumption].
  intros o Hin. apply in_or_app. left. auto.
Qed.

Lemma consistent_insert_order (now : Z) (v : Order.values) (db db' : DB) :
  consistent db -> insert_order now v db = Ok db' -> consistent db'.
Proof.
  intros [Hc Ho Hi He [Hfo Hfi] Hrc Hro Hri] H.
  apply insert_order_Ok in H.
  destruct H as (o & _ & _ & Hok & Hid & Hfk & Ecs & Eos & Eis).
  split; unfold fk_ok, customer_ids, customer_emails, order_ids,
    order_item_ids in *; rewrite ?Ecs, ?Eos, ?Eis, ?map_app; simpl;
    auto using NoDup_snoc, Forall_snoc.
  split.
  - intros o' Hin. apply in_app_or in Hin.
    destruct Hin as [Hin | [<- | []]]; auto.
  - intros i Hin. apply in_or_app. left. auto.
Qed.

Lemma consistent_insert_order_item (v : OrderItem.values) (db db' : DB) :
  consistent db -> insert_order_item v db = Ok db' -> consistent db'.
Proof.
  intros [Hc Ho Hi He [Hfo Hfi] Hrc Hro Hri] H.
  apply insert_order_item_Ok in H.
  destruct H as (i & d & _ & _ & _ & _ & _ & Hok & Hid & Hfk & Ecs & Eos & Eis).
  split; unfold fk_ok, customer_ids, customer_emails, order_ids,
    order_item_ids in *; rewrite ?Ecs, ?Eos, ?Eis, ?map_app; simpl;
    auto using NoDup_snoc, Forall_snoc.
  split; [assumption |].
  intros i' Hin. apply in_app_or in Hin.
  destruct Hin as [Hin | [<- | []]]; auto.
Qed.

Lemma fk_ok_delete_orders_where (p : Order.row -> bool) (db db' : DB) :
  fk_ok db -> delete_orders_where p db = Ok db' -> fk_ok db'.
Proof.
  intros [Hfo Hfi] H.
  destruct (delete_orders_where_Ok p db) as (db1 & H1 & Ecs & Eos & Eis).
  rewrite H1 in H. injection H as <-.
  unfold fk_ok, customer_ids, order_ids in *. rewrite Ecs, Eos, Eis. split.
  - intros o Hin. apply filter_In in Hin. apply Hfo, Hin.
  - intros i Hin. apply filter_In in Hin. destruct Hin as [Hin Hkeep].
    apply negb_mem_Z in Hkeep. apply survivor_keeps_parent; auto.
Qed.

Lemma fk_ok_delete_customers_where (p : Customer.row -> bool) (db db' : DB) :
  fk_ok db -> delete_customers_where p db = Ok db' -> fk_ok db'.
Proof.
  intros [Hfo Hfi] H.
  destruct (delete_customers_where_Ok p db) as (db1 & H1 & Ecs & Eos & Eis).
  rewrite H1 in H. injection H as <-.
  unfold fk_ok, customer_ids, order_ids in *. rewrite Ecs, Eos, Eis. split.
  - intros o Hin. apply filter_In in Hin. destruct Hin as [Hin Hkeep].
    apply negb_mem_Z in Hkeep. apply survivor_keeps_parent; auto.
  - intros i Hin. apply filter_In in Hin. destruct Hin as [Hin Hkeep].
    apply negb_mem_Z in Hkeep.
    pose proof (survivor_keeps_parent Order.id _ _ _ (Hfi i Hin) Hkeep) as Hs.
    simpl in Hs. exact Hs.
Qed.

Lemma consistent_delete_order_items_where (p : OrderItem.row -> bool)
    (db db' : DB) :
  consistent db -> delete_order_items_where p db = Ok db' -> consistent db'.
Proof.
  intros [Hc Ho Hi He [Hfo Hfi] Hrc Hro Hri] H.
  destruct (delete_order_items_where_Ok p db) as (db1 & H1 & Ecs & Eos & Eis).
  rewrite H1 in H. injection H as <-.
  split; unfold fk_ok, customer_ids, customer_emails, order_ids,
    order_item_ids in *; rewrite ?Ecs, ?Eos, ?Eis;
    auto using NoDup_map_filter, Forall_filter.
  split; [assumption |].
  intros i Hin. apply filter_In in Hin. apply Hfi, Hin.
Qed.

Lemma consistent_delete_orders_where (p : Order.row -> bool) (db db' : DB) :
  consistent db -> delete_orders_where p db = Ok db' -> consistent db'.
Proof.
  intros [Hc Ho Hi He Hfk Hrc Hro Hri] H.
  pose proof (fk_ok_delete_orders_where p db db' Hfk H) as Hfk'.
  destruct (delete_orders_where_Ok p db) as (db1 & H1 & Ecs & Eos & Eis).
  rewrite H1 in H. injection H as <-.
  split; [ .. | exact Hfk' | | | ];
    unfold customer_ids, customer_emails, order_ids, order_item_ids in *;
    rewrite ?Ecs, ?Eos, ?Eis;
    auto using NoDup_map_filter, Forall_filter.
Qed.

Lemma consistent_delete_customers_where (p : Customer.row -> bool)
    (db db' : DB) :
  consistent db -> delete_customers_where p db = Ok db' -> consistent db'.
Proof.
  intros [Hc Ho Hi He Hfk Hrc Hro Hri] H.
  pose proof (fk_ok_delete_customers_where p db db' Hfk H) as Hfk'.
  destruct (delete_customers_where_Ok p db) as (db1 & H1 & Ecs & Eos & Eis).
  rewrite H1 in H. injection H as <-.
  split; [ .. | exact Hfk' | | | ];
    unfold customer_ids, customer_emails, order_ids, order_item_ids in *;
    rewrite ?Ecs, ?Eos, ?Eis;
    auto using NoDup_map_filter, Forall_filter.
Qed.

Lemma consistent_exec (r : request) (db db' : DB) :
  consistent db -> exec r db = Ok db' -> consistent db'.
Proof.
  destruct r; simpl;
    eauto using consistent_insert_customer, consistent_insert_order,
      consistent_insert_order_item, consistent_delete_customers_where,
      consistent_delete_orders_where, consistent_delete_order_items_where.
Qed.

Lemma reachable_consistent (db : DB) : reachable db -> consistent db.
Proof.
  induction 1; eauto using consistent_empty, consistent_exec.
Qed.

Lemma reachable_apply (db : DB) (r : request) :
  reachable db -> reachable (apply db r).
Proof.
  intros H. unfold apply. destruct (exec r db) eqn:E; [| assumption].
  eapply reachable_exec; eassumption.
Qed.

Lemma reachable_run (rs : list request) (db : DB) :
  reachable db -> reachable (run rs db).
Proof.
  revert db. induction rs as [| r rs IH]; simpl; intros db H; [assumption |].
  apply IH. now apply reachable_apply.
Qed.

(** ** The report *)

Lemma fold_left_items_total (items : list OrderItem.row) (a : Z) :
  fold_left (fun acc i => acc + OrderItem.quantity i * OrderItem.unit_price i)
            items a
  = a + items_total items.
Proof.
  revert a. induction items as [| i items IH]; intros a; simpl.
  - unfold items_total. simpl. lia.
  - rewrite IH. unfold items_total. simpl. lia.
Qed.

Lemma related_customer_Some (o : Order.row) (db : DB) :
  In (Order.customer_id o) (customer_ids db) ->
  exists c, related_customer o db = Some c
            /\ In c (customers db)
            /\ Customer.id c = Order.customer_id o.
Proof.
  unfold related_customer, customer_ids. intros Hin.
  destruct (find _ (customers db)) as [c |] eqn:E.
  - apply find_some in E. destruct E as [Hc Heq].
    apply Z.eqb_eq in Heq. eauto.
  - apply in_map_iff in Hin. destruct Hin as (c & Heq & Hc).
    apply (find_none _ _ E) in Hc. apply Z.eqb_neq in Hc. contradiction.
Qed.

Lemma order_summary_Ok (o : Order.row) (db : DB) (count : Z) :
  NoDup (customer_ids db) ->
  In (Order.customer_id o) (customer_ids db) ->
  exists e, order_summary o db count = Ok (e, count + 1) /\ summarizes db o e.
Proof.
  intros Hpk Hfk.
  destruct (related_customer_Some o db Hfk) as (c & E & Hc & Hid).
  unfold order_summary, query. rewrite E.
  eexists. split; [reflexivity |].
  unfold summarizes. simpl. repeat split; eauto.
  - intros c' Hc' Hid'. f_equal.
    apply (NoDup_map_inj Customer.id (customers db)); auto. congruence.
  - apply fold_left_items_total.
Qed.

Lemma summarize_Ok (os : list Order.row) (db : DB) (count : Z) :
  NoDup (customer_ids db) ->
  (forall o, In o os -> In (Order.customer_id o) (customer_ids db)) ->
  exists es,
    summarize os db count = Ok (es, count + Z.of_nat (List.length os))
    /\ Forall2 (summarizes db) os es.
Proof.
  intros Hpk. revert count.
  induction os as [| o os IH]; intros count Hfk.
  - exists []. simpl. split; [f_equal; f_equal; lia | constructor].
  - destruct (order_summary_Ok o db count Hpk) as (e & He & Hs);
      [apply Hfk; now left |].
    destruct (IH (count + 1)) as (es & Hes & Hall);
      [intros o' Ho'; apply Hfk; now right |].
    exists (e :: es). split; [| now constructor].
    cbn [summarize]. rewrite He. cbn [bind]. rewrite Hes. cbn [bind].
    f_equal. f_equal. cbn [List.length]. lia.
Qed.

Lemma summarize_length (os : list Order.row) (db : DB) (count count' : Z)
    (es : list report_entry) :
  summarize os db count = Ok (es, count') -> List.length es = List.length os.
Proof.
  revert count count' es.
  induction os as [| o os IH]; intros count count' es; cbn [summarize].
  - intros H. injection H as <- _. reflexivity.
  - intros H. apply bind_Ok in H. destruct H as ([e c1] & _ & H).
    apply bind_Ok in H. destruct H as ([es' c2] & Hes & H).
    injection H as <- _. cbn [List.length]. f_equal. eapply IH, Hes.
Qed.

Lemma orders_report_Ok (elapsed_ms : Z) (db : DB) :
  consistent db ->
  exists es,
    orders_report elapsed_ms db
    = Ok (mkResponse es
            (mkMetadata (Z.of_nat (List.length (orders db))) elapsed_ms
                        (1 + Z.of_nat (List.length (orders db)))))
    /\ Forall2 (summarizes db) (orders db) es.
Proof.
  intros Hdb.
  destruct (summarize_Ok (orders db) db 1 (customers_pkey db Hdb)) as
    (es & Hes & Hall); [apply (foreign_keys db Hdb) |].
  exists es. split; [| assumption].
  unfold orders_report, query. cbn [Z.add]. rewrite Hes. reflexivity.
Qed.

(** C1.  On every dataset that requests can build, the aggregator answers,
    and its report lists the orders one entry each, in order: the entry of an
    order carries the order's id, the name of the one customer the order
    references, the number of the order's items as [item_count], and the sum
    of quantity times unit price over those items as [total].  In particular,
    when the dataset holds one customer and two orders, the report has
    exactly two entries, whose totals are the two orders' item sums and whose
    customer name is that customer's. *)
Theorem report_entries_summarize_orders (elapsed_ms : Z) (db : DB) :
  reachable db ->
  exists r,
    orders_report elapsed_ms db = Ok r
    /\ Forall2 (summarizes db) (orders db) (report r)
    /\ (forall c o1 o2,
           customers db = [c] -> orders db = [o1; o2] ->
           exists e1 e2,
             report r = [e1; e2]
             /\ total e1 = items_total (related_items o1 db)
             /\ total e2 = items_total (related_items o2 db)
             /\ customer_name e1 = Customer.name c
             /\ customer_name e2 = Customer.name c).
Proof.
  intros Hreach. apply reachable_consistent in Hreach.
  destruct (orders_report_Ok elapsed_ms db Hreach) as (es & Hr & Hall).
  eexists. split; [exact Hr |]. cbn [report]. split; [exact Hall |].
  intros c o1 o2 Hc Ho. rewrite Ho in Hall.
  inversion Hall as [| ? e1 ? es1 H1 Hall1]; subst.
  inversion Hall1 as [| ? e2 ? es2 H2 Hall2]; subst.
  inversion Hall2; subst.
  exists e1, e2. split; [reflexivity |].
  destruct H1 as (_ & (c1 & Hin1 & Hid1) & Hname1 & _ & Ht1 & _).
  destruct H2 as (_ & (c2 & Hin2 & Hid2) & Hname2 & _ & Ht2 & _).
  rewrite Hc in Hin1, Hin2.
  destruct Hin1 as [<- | []], Hin2 as [<- | []].
  repeat split; auto.
  - apply Hname1; [rewrite Hc; now left | assumption].
  - apply Hname2; [rewrite Hc; now left | assumption].
Qed.

Lemma report_entries_summarize_orders_witness :
  exists r,
    orders_report 7 two_orders_db = Ok r
    /\ Forall2 (summarizes two_orders_db) (orders two_orders_db) (report r)
    /\ (forall c o1 o2,
           customers two_orders_db = [c] -> orders two_orders_db = [o1; o2] ->
           exists e1 e2,
             report r = [e1; e2]
             /\ total e1 = items_total (related_items o1 two_orders_db)
             /\ total e2 = items_total (related_items o2 two_orders_db)
             /\ customer_name e1 = Customer.name c
             /\ customer_name e2 = Customer.name c).
Proof.
  apply (report_entries_summarize_orders 7 two_orders_db).
  apply reachable_run. exact reachable_empty.
Defined.

(** The report of the sample data: totals 44.98 and 31.50. *)
Example two_orders_report :
  orders_report 7 two_orders_db
  = Ok (mkResponse
          [ mkEntry 1 "Ada" 2 1001 "pending" 4498;
            mkEntry 2 "Ada" 1 1002 "shipped" 3150 ]
          (mkMetadata 2 7 3)).
Proof. vm_compute. reflexivity. Qed.

(** C2.  Whenever the aggregator answers, [total_orders] in the metadata is
    the length of the report. *)
Theorem total_orders_is_report_length (elapsed_ms : Z) (db : DB)
    (r : report_response) :
  orders_report elapsed_ms db = Ok r ->
  total_orders (metadata r) = Z.of_nat (List.length (report r)).
Proof.
  unfold orders_report, query. intros H.
  apply bind_Ok in H. destruct H as ([es count] & Hes & H).
  injection H as <-. cbn [metadata total_orders report].
  apply summarize_length in Hes. now rewrite Hes.
Qed.

Lemma total_orders_is_report_length_witness :
  orders_report 7 two_orders_db
  = Ok (mkResponse
          [ mkEntry 1 "Ada" 2 1001 "pending" 4498;
            mkEntry 2 "Ada" 1 1002 "shipped" 3150 ]
          (mkMetadata 2 7 3))
  /\ 2 = Z.of_nat (List.length
                     [ mkEntry 1 "Ada" 2 1001 "pending" 4498;
                       mkEntry 2 "Ada" 1 1002 "shipped" 3150 ]).
Proof.
  split; [vm_compute; reflexivity |].
  apply (total_orders_is_report_length 7 two_orders_db
           (mkResponse
              [ mkEntry 1 "Ada" 2 1001 "pending" 4498;
                mkEntry 2 "Ada" 1 1002 "shipped" 3150 ]
              (mkMetadata 2 7 3))).
  vm_compute. reflexivity.
Defined.

Lemma related_items_positive (o : Order.row) (db : DB) :
  0 < Z.of_nat (List.length (related_items o db))
  <-> exists i, In i (order_items db) /\ OrderItem.order_id i = Order.id o.
Proof.
  unfold related_items. split.
  - destruct (filter _ (order_items db)) as [| i l] eqn:E; simpl; [lia |].
    intros _. exists i.
    assert (Hin : In i (i :: l)) by now left.
    rewrite <- E in Hin. apply filter_In in Hin.
    destruct Hin as [Hin Hp]. apply Z.eqb_eq in Hp. auto.
  - intros (i & Hin & Hid).
    assert (Hf : In i (filter
                         (fun i => OrderItem.order_id i =? Order.id o)
                         (order_items db))).
    { apply filter_In. split; [assumption | now apply Z.eqb_eq]. }
    destruct (filter _ (order_items db)); [destruct Hf | simpl; lia].
Qed.

(** C8, as the code has it.  On every dataset that requests can build,
    [GET /orders/report] answers 200 and each entry has as [item_count] the
    number of its order's items, which is positive exactly when the order has
    an item, and as [customer_name] the stored name of the order's
    customer. *)
Theorem report_item_counts_and_names (elapsed_ms : Z) (db : DB) :
  reachable db ->
  exists r,
    GET_orders_report elapsed_ms db = (200, Some r)
    /\ Forall2
         (fun o e =>
            item_count e = Z.of_nat (List.length (related_items o db))
            /\ 0 <= item_count e
            /\ (0 < item_count e <->
                exists i, In i (order_items db)
                          /\ OrderItem.order_id i = Order.id o)
            /\ exists c, In c (customers db)
                         /\ Customer.id c = Order.customer_id o
                         /\ customer_name e = Customer.name c)
         (orders db) (report r).
Proof.
  intros Hreach. apply reachable_consistent in Hreach.
  destruct (orders_report_Ok elapsed_ms db Hreach) as (es & Hr & Hall).
  eexists. unfold GET_orders_report. rewrite Hr. split; [reflexivity |].
  cbn [report]. revert Hall. apply Forall2_impl.
  intros o e (_ & (c & Hin & Hid) & Hname & Hcount & _).
  rewrite Hcount. repeat split; [lia | apply related_items_positive .. |].
  exists c. auto.
Qed.

Lemma report_item_counts_and_names_witness :
  exists r,
    GET_orders_report 7 two_orders_db = (200, Some r)
    /\ Forall2
         (fun o e =>
            item_count e
            = Z.of_nat (List.length (related_items o two_orders_db))
            /\ 0 <= item_count e
            /\ (0 < item_count e <->
                exists i, In i (order_items two_orders_db)
                          /\ OrderItem.order_id i = Order.id o)
            /\ exists c, In c (customers two_orders_db)
                         /\ Customer.id c = Order.customer_id o
                         /\ customer_name e = Customer.name c)
         (orders two_orders_db) (report r).
Proof.
  apply (report_item_counts_and_names 7 two_orders_db).
  apply reachable_run. exact reachable_empty.
Defined.

(** C8 fails as stated: a customer named by the empty string with an order
    that has no item is a dataset every constraint accepts, and its report
    entry has [item_count] 0 and an empty [customer_name]. *)
Lemma report_of_order_without_items :
  reachable bare_order_db
  /\ orders bare_order_db <> []
  /\ GET_orders_report 7 bare_order_db
     = (200, Some (mkResponse [ mkEntry 1 "" 0 1001 "pending" 0 ]
                              (mkMetadata 1 7 2))).
Proof.
  split; [apply reachable_run; exact reachable_empty |].
  split; [vm_compute; discriminate | vm_compute; reflexivity].
Qed.

(** ** The end-to-end test *)

Lemma assert_Ok (b : bool) (msg : string) (u : unit) :
  assert b msg = Ok u -> b = true.
Proof. apply require_Ok. Qed.

Ltac invert_test :=
  repeat match goal with
    | H : bind _ _ = Ok _ |- _ =>
        let a := fresh "a" in
        let Ha := fresh "Ha" in
        apply bind_Ok in H; destruct H as (a & Ha & H)
    | H : assert _ _ = Ok _ |- _ => apply assert_Ok in H
    | H : (0 <? _) = true |- _ => apply Z.ltb_lt in H
    | H : (_ =? _) = true |- _ => apply Z.eqb_eq in H
    end.

(** What a response that passes the test must contain. *)
Lemma e2e_passed (response : Response) :
  test_orders_report_endpoint_e2e response = Ok tt ->
  exists data report n first_order metadata total_orders query_count,
    status_code response = 200
    /\ response_json response = Ok data
    /\ py_getitem data "report" = Ok report
    /\ py_len report = Ok n
    /\ 0 < n
    /\ py_first report = Ok first_order
    /\ (exists v k, py_getitem first_order "item_count" = Ok v
                    /\ int_value v = Ok k /\ 0 < k)
    /\ (exists v k, py_getitem first_order "customer_name" = Ok v
                    /\ py_len v = Ok k /\ 0 < k)
    /\ py_getitem data "metadata" = Ok metadata
    /\ py_getitem metadata "total_orders" = Ok total_orders
    /\ int_value total_orders = Ok n
    /\ py_getitem metadata "query_count" = Ok query_count
    /\ exists q, int_value query_count = Ok q /\ 0 < q.
Proof.
  unfold test_orders_report_endpoint_e2e. intros H. invert_test.
  match goal with
  | H1 : response_json response = Ok ?data,
    H2 : py_getitem ?data "report" = Ok ?report,
    H3 : py_len ?report = Ok ?n,
    H4 : py_first ?report = Ok ?first,
    H5 : py_getitem ?data "metadata" = Ok ?md,
    H6 : py_getitem ?md "total_orders" = Ok ?t,
    H7 : py_getitem ?md "query_count" = Ok ?q |- _ =>
      exists data, report, n, first, md, t, q
  end.
  subst. repeat split; eauto.
Qed.

(** A passed test has checked that [total_orders] is the length of the
    report it received. *)
Lemma e2e_checks_total_orders (response : Response) :
  test_orders_report_endpoint_e2e response = Ok tt ->
  exists n, response_metadata response "total_orders" = Ok n
            /\ response_report_length response = Ok n.
Proof.
  intros H. apply e2e_passed in H.
  destruct H as (data & rep & n & first & md & t & q & _ & Hd & Hr & Hn & _
                 & _ & _ & _ & Hmd & Ht & Htn & _).
  exists n. unfold response_metadata, response_report_length.
  rewrite Hd. cbn [bind]. rewrite Hr, Hmd. cbn [bind]. rewrite Ht.
  cbn [bind]. auto.
Qed.

(** C3, as the code has it.  A response passes the test only if its
    [metadata.query_count] is an integer greater than 0: the assertion on
    line 78 is [metadata["query_count"] > 0]. *)
Theorem e2e_asserts_positive_query_count (response : Response) :
  test_orders_report_endpoint_e2e response = Ok tt ->
  exists q, response_metadata response "query_count" = Ok q /\ 0 < q.
Proof.
  intros H. apply e2e_passed in H.
  destruct H as (data & rep & n & first & md & t & qc & _ & Hd & _ & _ & _
                 & _ & _ & _ & Hmd & _ & _ & Hqc & q & Hq & Hpos).
  exists q. split; [| assumption].
  unfold response_metadata.
  rewrite Hd. cbn [bind]. rewrite Hmd. cbn [bind]. rewrite Hqc.
  cbn [bind]. assumption.
Qed.

Lemma e2e_asserts_positive_query_count_witness :
  test_orders_report_endpoint_e2e (response_with_query_count 3) = Ok tt
  /\ exists q,
       response_metadata (response_with_query_count 3) "query_count" = Ok q
       /\ 0 < q.
Proof.
  split; [vm_compute; reflexivity |].
  apply (e2e_asserts_positive_query_count (response_with_query_count 3)).
  vm_compute. reflexivity.
Defined.

(** C3 fails as stated: a response whose [query_count] is 1, which is not
    greater than 1, passes the test; one whose [query_count] is 0 fails it on
    that assertion. *)
Lemma e2e_accepts_query_count_1 :
  test_orders_report_endpoint_e2e (response_with_query_count 1) = Ok tt
  /\ response_metadata (response_with_query_count 1) "query_count" = Ok 1
  /\ test_orders_report_endpoint_e2e (response_with_query_count 0)
     = Err (AssertionError
              "query_count should be positive (N+1 problem visible)").
Proof. repeat split; vm_compute; reflexivity. Qed.

(** ** Cascading deletes *)

Lemma in_ids_of_matching {R : Type} (pid : R -> Z) (k x : Z) (l : list R) :
  In x (map pid (filter (fun r => pid r =? k) l))
  <-> x = k /\ In k (map pid l).
Proof.
  rewrite !in_map_iff. split.
  - intros (r & <- & Hr). apply filter_In in Hr. destruct Hr as [Hr Hk].
    apply Z.eqb_eq in Hk. split; [assumption |]. exists r. auto.
  - intros (-> & r & <- & Hr). exists r. split; [reflexivity |].
    apply filter_In. split; [assumption | apply Z.eqb_refl].
Qed.

(** Under referential integrity the orders a customer's deletion cascades
    to are the orders of that customer. *)
Lemma cascaded_orders (id : Z) (db : DB) (o : Order.row) :
  fk_ok db -> In o (orders db) ->
  mem_Z (Order.customer_id o)
        (map Customer.id
             (filter (fun c => Customer.id c =? id) (customers db))) = true
  <-> Order.customer_id o = id.
Proof.
  intros [Hfo _] Hin. rewrite mem_Z_In, in_ids_of_matching. split.
  - tauto.
  - intros <-. split; [reflexivity |]. apply Hfo, Hin.
Qed.

Lemma negb_true_not (b : bool) (P : Prop) :
  (b = true <-> P) -> (negb b = true <-> ~ P).
Proof.
  destruct b; simpl; intros [H1 H2]; split; intros H.
  - discriminate.
  - exfalso. apply H, H1. reflexivity.
  - intros HP. apply H2 in HP. discriminate.
  - reflexivity.
Qed.

(** C4.  On a store with referential integrity, deleting a customer always
    succeeds, removes exactly that customer, exactly the orders whose
    [customer_id] references it and exactly the items whose [order_id]
    references one of those orders, and leaves no order without its customer
    and no item without its order.  Deleting an order removes exactly that
    order and the items whose [order_id] references it, again leaving no
    orphan. *)
Theorem delete_cascades (customer order : Z) (db : DB) :
  fk_ok db ->
  (exists db',
      delete_customer customer db = Ok db'
      /\ (forall c, In c (customers db') <->
                    In c (customers db) /\ Customer.id c <> customer)
      /\ (forall o, In o (orders db') <->
                    In o (orders db) /\ Order.customer_id o <> customer)
      /\ (forall i, In i (order_items db') <->
                    In i (order_items db)
                    /\ ~ exists o, In o (orders db)
                                   /\ Order.customer_id o = customer
                                   /\ OrderItem.order_id i = Order.id o)
      /\ fk_ok db')
  /\ (exists db',
         delete_order order db = Ok db'
         /\ customers db' = customers db
         /\ (forall o, In o (orders db') <->
                       In o (orders db) /\ Order.id o <> order)
         /\ (forall i, In i (order_items db') <->
                       In i (order_items db)
                       /\ OrderItem.order_id i <> order)
         /\ fk_ok db').
Proof.
  intros Hfk. split.
  - destruct (delete_customers_where_Ok
                (fun c => Customer.id c =? customer) db)
      as (db' & Hdel & Ecs & Eos & Eis).
    exists db'. split; [exact Hdel |].
    rewrite Ecs, Eos, Eis.
    split; [| split; [| split]].
    + intros c. rewrite filter_In, negb_true_iff, Z.eqb_neq. tauto.
    + intros o. rewrite filter_In. split.
      * intros [Hin H]. split; [assumption |].
        now apply (negb_true_not _ _ (cascaded_orders customer db o Hfk Hin)).
      * intros [Hin H]. split; [assumption |].
        now apply (negb_true_not _ _ (cascaded_orders customer db o Hfk Hin)).
    + intros i. rewrite filter_In, negb_mem_Z. split.
      * intros [Hin H]. split; [assumption |].
        intros (o & Ho & Hc & Hid). apply H.
        rewrite Hid. apply in_map. apply filter_In. split; [assumption |].
        now apply (cascaded_orders customer db o Hfk Ho).
      * intros [Hin Hnone]. split; [assumption |].
        intros Hdoomed. apply Hnone.
        apply in_map_iff in Hdoomed. destruct Hdoomed as (o & Hid & Ho).
        apply filter_In in Ho. destruct Ho as [Ho Hc].
        apply (cascaded_orders customer db o Hfk Ho) in Hc.
        exists o. auto.
    + eapply fk_ok_delete_customers_where; eassumption.
  - destruct (delete_orders_where_Ok (fun o => Order.id o =? order) db)
      as (db' & Hdel & Ecs & Eos & Eis).
    exists db'. split; [exact Hdel |]. split; [exact Ecs |].
    rewrite Eos, Eis.
    split; [| split].
    + intros o. rewrite filter_In, negb_true_iff, Z.eqb_neq. tauto.
    + intros i. rewrite filter_In, negb_mem_Z, in_ids_of_matching. split.
      * intros [Hin H]. split; [assumption |].
        intros Heq. apply H. split; [assumption |].
        rewrite <- Heq. apply Hfk, Hin.
      * intros [Hin Hne]. split; [assumption | tauto].
    + eapply fk_ok_delete_orders_where; eassumption.
Qed.

Lemma fk_ok_two_orders_db : fk_ok two_orders_db.
Proof.
  apply foreign_keys, reachable_consistent, reachable_run, reachable_empty.
Qed.

Lemma delete_cascades_witness :
  fk_ok two_orders_db
  /\ (exists db',
         delete_customer 1 two_orders_db = Ok db'
         /\ (forall c, In c (customers db') <->
                       In c (customers two_orders_db) /\ Customer.id c <> 1)
         /\ (forall o, In o (orders db') <->
                       In o (orders two_orders_db)
                       /\ Order.customer_id o <> 1)
         /\ (forall i, In i (order_items db') <->
                       In i (order_items two_orders_db)
                       /\ ~ exists o, In o (orders two_orders_db)
                                      /\ Order.customer_id o = 1
                                      /\ OrderItem.order_id i = Order.id o)
         /\ fk_ok db')
  /\ (exists db',
         delete_order 1 two_orders_db = Ok db'
         /\ customers db' = customers two_orders_db
         /\ (forall o, In o (orders db') <->
                       In o (orders two_orders_db) /\ Order.id o <> 1)
         /\ (forall i, In i (order_items db') <->
                       In i (order_items two_orders_db)
                       /\ OrderItem.order_id i <> 1)
         /\ fk_ok db').
Proof.
  split; [exact fk_ok_two_orders_db |].
  apply (delete_cascades 1 1 two_orders_db). exact fk_ok_two_orders_db.
Defined.

(** Deleting the customer of the sample data empties all three tables;
    deleting its first order leaves the second order and its one item. *)
Example delete_customer_two_orders_db :
  delete_customer 1 two_orders_db = Ok (mkDB [] [] [] 2 3 4)
  /\ delete_order 1 two_orders_db
     = Ok (mkDB [ Customer.mk 1 "Ada" "ada@example.com" None 1000 ]
                [ Order.mk 2 1 1002 "shipped" None ]
                [ OrderItem.mk 3 2 "Gizmo" 3 1050 ]
                2 3 4).
Proof. split; vm_compute; reflexivity. Qed.

(** ** Rejected inserts *)

Lemma rejected (r : request) (db : DB) :
  (forall db', exec r db <> Ok db') ->
  (exists e, exec r db = Err e) /\ apply db r = db.
Proof.
  intros Hno. unfold apply. destruct (exec r db) as [db' | e] eqn:E.
  - exfalso. now apply (Hno db').
  - split; [now exists e | reflexivity].
Qed.

(** C5.  An insert into orders that succeeds carried a status among
    'pending', 'processing', 'shipped', 'delivered' and 'cancelled', and
    appended one order with that status; an insert whose status is none of
    the five is rejected and leaves the store as it was; so on every dataset
    that requests can build every order has one of the five statuses. *)
Theorem insert_order_status (now : Z) (v : Order.values) (db : DB) :
  (forall db',
      insert_order now v db = Ok db' ->
      exists o,
        Order.status_ v = Some (Order.status o)
        /\ In (Order.status o)
              ["pending"; "processing"; "shipped"; "delivered"; "cancelled"]
        /\ orders db' = orders db ++ [o])
  /\ ((forall s,
          In s ["pending"; "processing"; "shipped"; "delivered"; "cancelled"]
          -> Order.status_ v <> Some s) ->
      (exists e, insert_order now v db = Err e)
      /\ orders (apply db (InsertOrder now v)) = orders db
      /\ apply db (InsertOrder now v) = db)
  /\ (reachable db ->
      forall o, In o (orders db) ->
                In (Order.status o)
                   ["pending"; "processing"; "shipped"; "delivered";
                    "cancelled"]).
Proof.
  split; [| split].
  - intros db' H. apply insert_order_Ok in H.
    destruct H as (o & _ & Hs & [Hin _] & _ & _ & _ & Eos & _).
    exists o. auto.
  - intros Hbad.
    destruct (rejected (InsertOrder now v) db) as [Herr Hsame].
    + intros db' H. simpl in H. apply insert_order_Ok in H.
      destruct H as (o & _ & Hs & [Hin _] & _).
      exact (Hbad _ Hin Hs).
    + rewrite Hsame. auto.
  - intros Hreach o Hin. apply reachable_consistent in Hreach.
    pose proof (orders_ok db Hreach) as Hall.
    rewrite Forall_forall in Hall. apply Hall in Hin. apply Hin.
Qed.

Lemma insert_order_status_witness :
  (insert_order 1003 (order_for 1 "delivered") two_orders_db
   = Ok (mkDB (customers two_orders_db)
              (orders two_orders_db ++ [ Order.mk 3 1 1003 "delivered" None ])
              (order_items two_orders_db) 2 4 4)
   /\ exists o,
        Some "delivered" = Some (Order.status o)
        /\ In (Order.status o)
              ["pending"; "processing"; "shipped"; "delivered"; "cancelled"]
        /\ orders two_orders_db ++ [ Order.mk 3 1 1003 "delivered" None ]
           = orders two_orders_db ++ [o])
  /\ (insert_order 1003 (order_for 1 "refunded") two_orders_db
      = Err (CheckViolation "check_status_values")
      /\ (exists e,
             insert_order 1003 (order_for 1 "refunded") two_orders_db = Err e)
      /\ orders (apply two_orders_db
                       (InsertOrder 1003 (order_for 1 "refunded")))
         = orders two_orders_db
      /\ apply two_orders_db (InsertOrder 1003 (order_for 1 "refunded"))
         = two_orders_db)
  /\ forall o, In o (orders two_orders_db) ->
               In (Order.status o)
                  ["pending"; "processing"; "shipped"; "delivered";
                   "cancelled"].
Proof.
  split; [split; [vm_compute; reflexivity |] |
          split; [split; [vm_compute; reflexivity |] |]].
  - apply (proj1 (insert_order_status 1003 (order_for 1 "delivered")
                    two_orders_db)
                 (mkDB (customers two_orders_db)
                       (orders two_orders_db
                          ++ [ Order.mk 3 1 1003 "delivered" None ])
                       (order_items two_orders_db) 2 4 4)).
    vm_compute. reflexivity.
  - apply (proj1 (proj2 (insert_order_status 1003 (order_for 1 "refunded")
                           two_orders_db))).
    intros s Hs Heq. injection Heq as <-.
    simpl in Hs. intuition discriminate.
  - apply (proj2 (proj2 (insert_order_status 0 (order_for 1 "pending")
                           two_orders_db))).
    apply reachable_run. exact reachable_empty.
Defined.

(** ** Decimals at the column's scale *)

Lemma rescale_exact (s : Z) (d : Decimal) :
  0 <= exponent d + s ->
  rescale s d = coefficient d * 10 ^ (exponent d + s).
Proof.
  unfold rescale. intros H.
  destruct (Z.leb_spec 0 (exponent d + s)); [reflexivity | lia].
Qed.

Lemma rescale_exact_negative (s : Z) (d : Decimal) :
  0 <= exponent d + s -> coefficient d < 0 -> rescale s d < 0.
Proof.
  intros He Hc. rewrite rescale_exact by assumption.
  apply Z.mul_neg_pos; [assumption |]. apply Z.pow_pos_nonneg; lia.
Qed.

(** C6.  An insert into order_items that succeeds carried a quantity greater
    than 0 and a unit price whose column value (the decimal brought to two
    fractional digits) is at least 0, and appended one item with them; an
    insert whose quantity is at most 0 or whose unit price column value is
    below 0 is rejected and leaves the store as it was, and so is every
    insert of a negative price written with at most two fractional digits;
    so on every dataset that requests can build every item has
    [quantity > 0] and [unit_price >= 0]. *)
Theorem insert_order_item_bounds (v : OrderItem.values) (db : DB) :
  (forall db',
      insert_order_item v db = Ok db' ->
      exists i d,
        OrderItem.quantity_ v = Some (OrderItem.quantity i)
        /\ OrderItem.unit_price_ v = Some d
        /\ OrderItem.unit_price i = rescale 2 d
        /\ 0 < OrderItem.quantity i
        /\ 0 <= OrderItem.unit_price i
        /\ order_items db' = order_items db ++ [i])
  /\ (forall q d,
         OrderItem.quantity_ v = Some q ->
         OrderItem.unit_price_ v = Some d ->
         q <= 0 \/ rescale 2 d < 0
         \/ (- 2 <= exponent d /\ coefficient d < 0) ->
         (exists e, insert_order_item v db = Err e)
         /\ apply db (InsertOrderItem v) = db)
  /\ (reachable db ->
      forall i, In i (order_items db) ->
                0 < OrderItem.quantity i /\ 0 <= OrderItem.unit_price i).
Proof.
  split; [| split].
  - intros db' H. apply insert_order_item_Ok in H.
    destruct H as (i & d & _ & Hq & _ & Hd & Hp & (_ & Hpos & Hnn & _) & _
                   & _ & _ & _ & Eis).
    exists i, d. auto 10.
  - intros q d Hq Hd Hbad. apply (rejected (InsertOrderItem v) db).
    intros db' H. simpl in H.
    apply insert_order_item_Ok in H.
    destruct H as (i & d' & _ & Hq' & _ & Hd' & Hp & (_ & Hpos & Hnn & _) & _).
    rewrite Hq in Hq'. injection Hq' as Hq'.
    rewrite Hd in Hd'. injection Hd' as <-.
    change OrderItem.unit_price_scale with 2 in Hp.
    destruct Hbad as [Hle | [Hneg | [He Hc]]]; [lia | lia |].
    pose proof (rescale_exact_negative 2 d) as Hr. lia.
  - intros Hreach i Hin. apply reachable_consistent in Hreach.
    pose proof (order_items_ok db Hreach) as Hall.
    rewrite Forall_forall in Hall. apply Hall in Hin.
    destruct Hin as (_ & Hpos & Hnn & _). auto.
Qed.

Lemma insert_order_item_bounds_witness :
  (insert_order_item (item_for 2 "Gizmo" 3 (mkDecimal 105 (-1))) two_orders_db
   = Ok (mkDB (customers two_orders_db) (orders two_orders_db)
              (order_items two_orders_db
                 ++ [ OrderItem.mk 4 2 "Gizmo" 3 1050 ])
              2 3 5)
   /\ exists i d,
        Some 3 = Some (OrderItem.quantity i)
        /\ Some (mkDecimal 105 (-1)) = Some d
        /\ OrderItem.unit_price i = rescale 2 d
        /\ 0 < OrderItem.quantity i
        /\ 0 <= OrderItem.unit_price i
        /\ order_items two_orders_db ++ [ OrderItem.mk 4 2 "Gizmo" 3 1050 ]
           = order_items two_orders_db ++ [i])
  /\ ((exists e,
          insert_order_item (item_for 2 "Gizmo" 0 (mkDecimal 105 (-1)))
                            two_orders_db = Err e)
      /\ apply two_orders_db
               (InsertOrderItem (item_for 2 "Gizmo" 0 (mkDecimal 105 (-1))))
         = two_orders_db)
  /\ ((exists e,
          insert_order_item (item_for 2 "Gizmo" 3 (mkDecimal (-1) (-2)))
                            two_orders_db = Err e)
      /\ apply two_orders_db
               (InsertOrderItem (item_for 2 "Gizmo" 3 (mkDecimal (-1) (-2))))
         = two_orders_db)
  /\ forall i, In i (order_items two_orders_db) ->
               0 < OrderItem.quantity i /\ 0 <= OrderItem.unit_price i.
Proof.
  split; [split; [vm_compute; reflexivity |] | split; [| split]].
  - apply (proj1 (insert_order_item_bounds
                    (item_for 2 "Gizmo" 3 (mkDecimal 105 (-1)))
                    two_orders_db)
                 (mkDB (customers two_orders_db) (orders two_orders_db)
                       (order_items two_orders_db
                          ++ [ OrderItem.mk 4 2 "Gizmo" 3 1050 ])
                       2 3 5)).
    vm_compute. reflexivity.
  - apply (proj1 (proj2 (insert_order_item_bounds
                           (item_for 2 "Gizmo" 0 (mkDecimal 105 (-1)))
                           two_orders_db))
                 0 (mkDecimal 105 (-1)));
      [reflexivity | reflexivity | left; lia].
  - apply (proj1 (proj2 (insert_order_item_bounds
                           (item_for 2 "Gizmo" 3 (mkDecimal (-1) (-2)))
                           two_orders_db))
                 3 (mkDecimal (-1) (-2)));
      [reflexivity | reflexivity | right; left; vm_compute; reflexivity].
  - apply (proj2 (proj2 (insert_order_item_bounds
                           (item_for 2 "Gizmo" 3 (mkDecimal 105 (-1)))
                           two_orders_db))).
    apply reachable_run. exact reachable_empty.
Defined.

(** ** Unique emails *)

(** C7.  An insert into customers whose email is that of a customer already
    in the table is rejected and leaves the store as it was, in particular
    when that customer was put there by the insert just before; so on every
    dataset that requests can build the emails are pairwise different. *)
Theorem customer_email_unique (now : Z) (v : Customer.values) (db : DB) :
  (forall c,
      In c (customers db) ->
      Customer.email_ v = Some (Customer.email c) ->
      (exists e, insert_customer now v db = Err e)
      /\ apply db (InsertCustomer now v) = db)
  /\ (forall now0 v0 db0,
         insert_customer now0 v0 db0 = Ok db ->
         Customer.email_ v = Customer.email_ v0 ->
         (exists e, insert_customer now v db = Err e)
         /\ apply db (InsertCustomer now v) = db)
  /\ (reachable db ->
      NoDup (customer_emails db)
      /\ forall c1 c2,
           In c1 (customers db) -> In c2 (customers db) -> c1 <> c2 ->
           Customer.email c1 <> Customer.email c2).
Proof.
  assert (Hdup : forall c,
             In c (customers db) ->
             Customer.email_ v = Some (Customer.email c) ->
             (exists e, insert_customer now v db = Err e)
             /\ apply db (InsertCustomer now v) = db).
  { intros c Hin Hv. apply (rejected (InsertCustomer now v) db).
    intros db' H. simpl in H. apply insert_customer_Ok in H.
    destruct H as (c' & _ & Hem & _ & _ & _ & Hfresh & _).
    apply Hfresh. rewrite Hv in Hem. injection Hem as <-.
    unfold customer_emails. now apply in_map. }
  split; [exact Hdup | split].
  - intros now0 v0 db0 H0 Hv. apply insert_customer_Ok in H0.
    destruct H0 as (c & _ & Hem & _ & _ & _ & _ & Ecs & _).
    apply (Hdup c).
    + rewrite Ecs. apply in_or_app. right. now left.
    + congruence.
  - intros Hreach. apply reachable_consistent in Hreach.
    pose proof (customers_email_key db Hreach) as Hnd.
    split; [exact Hnd |].
    intros c1 c2 H1 H2 Hne Heq. apply Hne.
    exact (NoDup_map_inj Customer.email (customers db) c1 c2 Hnd H1 H2 Heq).
Qed.

Lemma customer_email_unique_witness :
  (In (Customer.mk 1 "Ada" "ada@example.com" None 1000)
      (customers two_orders_db)
   /\ (exists e, insert_customer 2000 ada_again two_orders_db = Err e)
   /\ apply two_orders_db (InsertCustomer 2000 ada_again) = two_orders_db)
  /\ insert_customer 2000 ada_again two_orders_db
     = Err (UniqueViolation "customers_email_key")
  /\ (insert_customer 1000 ada empty_db
      = Ok (run [InsertCustomer 1000 ada] empty_db)
      /\ (exists e,
             insert_customer 2000 ada_again
               (run [InsertCustomer 1000 ada] empty_db) = Err e)
      /\ apply (run [InsertCustomer 1000 ada] empty_db)
               (InsertCustomer 2000 ada_again)
         = run [InsertCustomer 1000 ada] empty_db)
  /\ NoDup (customer_emails two_orders_db)
  /\ forall c1 c2,
       In c1 (customers two_orders_db) -> In c2 (customers two_orders_db) ->
       c1 <> c2 -> Customer.email c1 <> Customer.email c2.
Proof.
  split; [split; [vm_compute; left; reflexivity |] |
          split; [vm_compute; reflexivity |
                  split; [split; [vm_compute; reflexivity |] |]]].
  - apply (proj1 (customer_email_unique 2000 ada_again two_orders_db)
                 (Customer.mk 1 "Ada" "ada@example.com" None 1000));
      [vm_compute; left; reflexivity | reflexivity].
  - apply (proj1 (proj2 (customer_email_unique 2000 ada_again
                           (run [InsertCustomer 1000 ada] empty_db)))
                 1000 ada empty_db);
      [vm_compute; reflexivity | reflexivity].
  - apply (proj2 (proj2 (customer_email_unique 2000 ada_again two_orders_db))).
    apply reachable_run. exact reachable_empty.
Defined.

(** ** String lengths *)

(** C9.  On every dataset that requests can build, a customer's name and
    company have at most 100 characters and its email at most 255, an
    order's status at most 20 and an item's product name at most 200; an
    insert that carries a longer string in one of these columns is rejected
    and leaves the store as it was. *)
Theorem string_length_limits (db : DB) :
  (reachable db ->
   (forall c, In c (customers db) ->
              (String.length (Customer.name c) <= 100)%nat
              /\ (String.length (Customer.email c) <= 255)%nat
              /\ forall s, Customer.company c = Some s ->
                           (String.length s <= 100)%nat)
   /\ (forall o, In o (orders db) ->
                 (String.length (Order.status o) <= 20)%nat)
   /\ (forall i, In i (order_items db) ->
                 (String.length (OrderItem.product_name i) <= 200)%nat))
  /\ (forall now v s,
         (Customer.name_ v = Some s /\ (100 < String.length s)%nat)
         \/ (Customer.email_ v = Some s /\ (255 < String.length s)%nat)
         \/ (Customer.company_ v = Some s /\ (100 < String.length s)%nat) ->
         (exists e, insert_customer now v db = Err e)
         /\ apply db (InsertCustomer now v) = db)
  /\ (forall now v s,
         Order.status_ v = Some s -> (20 < String.length s)%nat ->
         (exists e, insert_order now v db = Err e)
         /\ apply db (InsertOrder now v) = db)
  /\ (forall v s,
         OrderItem.product_name_ v = Some s -> (200 < String.length s)%nat ->
         (exists e, insert_order_item v db = Err e)
         /\ apply db (InsertOrderItem v) = db).
Proof.
  split; [| split; [| split]].
  - intros Hreach. apply reachable_consistent in Hreach.
    destruct Hreach as [_ _ _ _ _ Hc Ho Hi].
    rewrite Forall_forall in Hc, Ho, Hi.
    split; [| split].
    + intros c Hin. exact (Hc c Hin).
    + intros o Hin. exact (proj2 (Ho o Hin)).
    + intros i Hin. exact (proj1 (Hi i Hin)).
  - intros now v s Hlong. apply (rejected (InsertCustomer now v) db).
    intros db' H. simpl in H. apply insert_customer_Ok in H.
    destruct H as (c & Hn & He & Hco & (Hln & Hle & Hlc) & _).
    unfold Customer.name_length, Customer.email_length,
      Customer.company_length in *.
    destruct Hlong as [[Hs Hgt] | [[Hs Hgt] | [Hs Hgt]]].
    + rewrite Hs in Hn. injection Hn as ->. lia.
    + rewrite Hs in He. injection He as ->. lia.
    + rewrite Hs in Hco. symmetry in Hco. apply Hlc in Hco. lia.
  - intros now v s Hs Hgt. apply (rejected (InsertOrder now v) db).
    intros db' H. simpl in H. apply insert_order_Ok in H.
    destruct H as (o & _ & Hst & [_ Hlen] & _).
    unfold Order.status_length in Hlen.
    rewrite Hs in Hst. injection Hst as ->. lia.
  - intros v s Hs Hgt. apply (rejected (InsertOrderItem v) db).
    intros db' H. simpl in H. apply insert_order_item_Ok in H.
    destruct H as (i & d & _ & _ & Hp & _ & _ & (Hlen & _) & _).
    unfold OrderItem.product_name_length in Hlen.
    rewrite Hs in Hp. injection Hp as ->. lia.
Qed.

Lemma string_length_limits_witness :
  ((forall c, In c (customers two_orders_db) ->
              (String.length (Customer.name c) <= 100)%nat
              /\ (String.length (Customer.email c) <= 255)%nat
              /\ forall s, Customer.company c = Some s ->
                           (String.length s <= 100)%nat)
   /\ (forall o, In o (orders two_orders_db) ->
                 (String.length (Order.status o) <= 20)%nat)
   /\ (forall i, In i (order_items two_orders_db) ->
                 (String.length (OrderItem.product_name i) <= 200)%nat))
  /\ ((exists e,
          insert_customer 2000
            (Customer.new None (Some (padding 101)) (Some "long@example.com")
                          None None)
            two_orders_db = Err e)
      /\ apply two_orders_db
               (InsertCustomer 2000
                  (Customer.new None (Some (padding 101))
                                (Some "long@example.com") None None))
         = two_orders_db)
  /\ ((exists e,
          insert_order 2000 (order_for 1 "out_for_delivery_today")
                       two_orders_db = Err e)
      /\ apply two_orders_db
               (InsertOrder 2000 (order_for 1 "out_for_delivery_today"))
         = two_orders_db)
  /\ ((exists e,
          insert_order_item
            (item_for 1 (padding 201) 1 (mkDecimal 100 (-2)))
            two_orders_db = Err e)
      /\ apply two_orders_db
               (InsertOrderItem
                  (item_for 1 (padding 201) 1 (mkDecimal 100 (-2))))
         = two_orders_db).
Proof.
  split; [| split; [| split]].
  - apply (proj1 (string_length_limits two_orders_db)).
    apply reachable_run. exact reachable_empty.
  - apply (proj1 (proj2 (string_length_limits two_orders_db))
                 2000 _ (padding 101)).
    left. split; [reflexivity | vm_compute; lia].
  - apply (proj1 (proj2 (proj2 (string_length_limits two_orders_db)))
                 2000 _ "out_for_delivery_today");
      [reflexivity | vm_compute; lia].
  - apply (proj2 (proj2 (proj2 (string_length_limits two_orders_db)))
                 _ (padding 201));
      [reflexivity | vm_compute; lia].
Defined.

(** ** Unit prices *)

Lemma round_half_away_spec (n d : Z) :
  0 < d -> 2 * Z.abs (n - round_half_away n d * d) <= d.
Proof.
  intros Hd. unfold round_half_away.
  pose proof (Z.div_mod (2 * Z.abs n + d) (2 * d)) as Hdm.
  pose proof (Z.mod_pos_bound (2 * Z.abs n + d) (2 * d)) as Hb.
  set (q := (2 * Z.abs n + d) / (2 * d)) in *.
  set (r := (2 * Z.abs n + d) mod (2 * d)) in *.
  assert (Hq : 2 * Z.abs n + d = 2 * (d * q) + r) by lia.
  destruct (Z.sgn_spec n) as [[Hn ->] | [[Hn ->] | [Hn ->]]]; lia.
Qed.

(** Bringing a decimal to scale [s] keeps it when it has at most [s]
    fractional digits and otherwise moves it by at most half a unit of the
    last kept digit. *)
Lemma rescale_rounds (s : Z) (d : Decimal) :
  exponent d + s < 0 ->
  2 * Z.abs (coefficient d - rescale s d * 10 ^ (- (exponent d + s)))
  <= 10 ^ (- (exponent d + s)).
Proof.
  intros H. unfold rescale.
  destruct (Z.leb_spec 0 (exponent d + s)); [lia |].
  apply round_half_away_spec. apply Z.pow_pos_nonneg; lia.
Qed.

Lemma unit_price_value_bound (i : OrderItem.row) :
  Z.abs (OrderItem.unit_price i) < 10 ^ 10 ->
  (Qabs (unit_price_value i) < inject_Z (10 ^ 8))%Q.
Proof.
  intros H. unfold unit_price_value, Qlt. cbn [Qabs Qnum Qden inject_Z].
  change (Z.pos 100) with 100. change (Z.pos 1) with 1.
  replace (10 ^ 8 * 100) with (10 ^ 10) by reflexivity. lia.
Qed.

(** C10.  On every dataset that requests can build, an item's unit price is
    a whole number of hundredths of fewer than 11 digits, so the amount it
    stands for is below 10^8 in absolute value.  An insert that succeeds
    stored the decimal it was given brought to two fractional digits:
    unchanged when the decimal has at most two fractional digits, and
    otherwise the nearest hundredth; an insert whose decimal, so brought,
    needs more than 10 digits is rejected and leaves the store as it was. *)
Theorem unit_price_numeric_10_2 (v : OrderItem.values) (db : DB) :
  (reachable db ->
   forall i, In i (order_items db) ->
             Z.abs (OrderItem.unit_price i) < 10 ^ 10
             /\ (Qabs (unit_price_value i) < inject_Z (10 ^ 8))%Q)
  /\ (forall db',
         insert_order_item v db = Ok db' ->
         exists i d,
           OrderItem.unit_price_ v = Some d
           /\ order_items db' = order_items db ++ [i]
           /\ Z.abs (OrderItem.unit_price i) < 10 ^ 10
           /\ (- 2 <= exponent d ->
               OrderItem.unit_price i
               = coefficient d * 10 ^ (exponent d + 2))
           /\ (exponent d < - 2 ->
               2 * Z.abs (coefficient d
                          - OrderItem.unit_price i * 10 ^ (- 2 - exponent d))
               <= 10 ^ (- 2 - exponent d)))
  /\ (forall d,
         OrderItem.unit_price_ v = Some d ->
         10 ^ 10 <= Z.abs (rescale 2 d) ->
         (exists e, insert_order_item v db = Err e)
         /\ apply db (InsertOrderItem v) = db).
Proof.
  split; [| split].
  - intros Hreach i Hin. apply reachable_consistent in Hreach.
    pose proof (order_items_ok db Hreach) as Hall.
    rewrite Forall_forall in Hall. apply Hall in Hin.
    destruct Hin as (_ & _ & Hrange).
    change OrderItem.unit_price_precision with 10 in Hrange.
    assert (Habs : Z.abs (OrderItem.unit_price i) < 10 ^ 10) by lia.
    split; [exact Habs | now apply unit_price_value_bound].
  - intros db' H. apply insert_order_item_Ok in H.
    destruct H as (i & d & _ & _ & _ & Hd & Hp & (_ & _ & Hrange) & _ & _
                   & _ & _ & Eis).
    change OrderItem.unit_price_precision with 10 in Hrange.
    change OrderItem.unit_price_scale with 2 in Hp.
    exists i, d. split; [exact Hd |]. split; [exact Eis |].
    split; [lia |]. split.
    + intros He. rewrite Hp. apply rescale_exact. lia.
    + intros He. rewrite Hp.
      replace (- 2 - exponent d) with (- (exponent d + 2)) by lia.
      apply rescale_rounds. lia.
  - intros d Hd Hbig. apply (rejected (InsertOrderItem v) db).
    intros db' H. simpl in H. apply insert_order_item_Ok in H.
    destruct H as (i & d' & _ & _ & _ & Hd' & Hp & (_ & _ & Hrange) & _).
    change OrderItem.unit_price_precision with 10 in Hrange.
    change OrderItem.unit_price_scale with 2 in Hp.
    rewrite Hd in Hd'. injection Hd' as <-. lia.
Qed.

Lemma unit_price_numeric_10_2_witness :
  (forall i, In i (order_items two_orders_db) ->
             Z.abs (OrderItem.unit_price i) < 10 ^ 10
             /\ (Qabs (unit_price_value i) < inject_Z (10 ^ 8))%Q)
  /\ (insert_order_item (item_for 1 "Widget" 1 (mkDecimal 19995 (-3)))
                        two_orders_db
      = Ok (mkDB (customers two_orders_db) (orders two_orders_db)
                 (order_items two_orders_db
                    ++ [ OrderItem.mk 4 1 "Widget" 1 2000 ])
                 2 3 5)
      /\ exists i d,
           Some (mkDecimal 19995 (-3)) = Some d
           /\ order_items two_orders_db
                ++ [ OrderItem.mk 4 1 "Widget" 1 2000 ]
              = order_items two_orders_db ++ [i]
           /\ Z.abs (OrderItem.unit_price i) < 10 ^ 10
           /\ (- 2 <= exponent d ->
               OrderItem.unit_price i
               = coefficient d * 10 ^ (exponent d + 2))
           /\ (exponent d < - 2 ->
               2 * Z.abs (coefficient d
                          - OrderItem.unit_price i * 10 ^ (- 2 - exponent d))
               <= 10 ^ (- 2 - exponent d)))
  /\ (insert_order_item (item_for 1 "Widget" 1 (mkDecimal 1 8)) two_orders_db
      = Err (NumericValueOutOfRange "unit_price")
      /\ (exists e,
             insert_order_item (item_for 1 "Widget" 1 (mkDecimal 1 8))
                               two_orders_db = Err e)
      /\ apply two_orders_db
               (InsertOrderItem (item_for 1 "Widget" 1 (mkDecimal 1 8)))
         = two_orders_db).
Proof.
  split; [| split; split;
             [vm_compute; reflexivity | | vm_compute; reflexivity |]].
  - apply (proj1 (unit_price_numeric_10_2
                    (item_for 1 "Widget" 1 (mkDecimal 19995 (-3)))
                    two_orders_db)).
    apply reachable_run. exact reachable_empty.
  - apply (proj1 (proj2 (unit_price_numeric_10_2
                           (item_for 1 "Widget" 1 (mkDecimal 19995 (-3)))
                           two_orders_db))
                 (mkDB (customers two_orders_db) (orders two_orders_db)
                       (order_items two_orders_db
                          ++ [ OrderItem.mk 4 1 "Widget" 1 2000 ])
                       2 3 5)).
    vm_compute. reflexivity.
  - apply (proj2 (proj2 (unit_price_numeric_10_2
                           (item_for 1 "Widget" 1 (mkDecimal 1 8))
                           two_orders_db))
                 (mkDecimal 1 8)); [reflexivity |].
    vm_compute. discriminate.
Defined.

(** ** String representations *)

Lemma length_append (s t : string) :
  String.length (s ++ t)%string = (String.length s + String.length t)%nat.
Proof. induction s as [| c s IH]; simpl; [reflexivity | now rewrite IH]. Qed.

Lemma append_assoc (s t u : string) :
  ((s ++ t) ++ u)%string = (s ++ (t ++ u))%string.
Proof. induction s as [| c s IH]; simpl; [reflexivity | now rewrite IH]. Qed.

Lemma append_inv_tail (s1 s2 t : string) :
  (s1 ++ t)%string = (s2 ++ t)%string -> s1 = s2.
Proof.
  revert s2. induction s1 as [| c s1 IH]; intros [| c2 s2] H; simpl in H.
  - reflexivity.
  - apply (f_equal String.length) in H. simpl in H.
    rewrite length_append in H. lia.
  - apply (f_equal String.length) in H. simpl in H.
    rewrite length_append in H. lia.
  - injection H as -> H. f_equal. now apply IH.
Qed.

(** Two strings of number characters followed by the same other character
    are cut at that character. *)
Lemma cut_at_delimiter (a b ra rb : string) (c : ascii) :
  all_chars number_char a = true -> all_chars number_char b = true ->
  number_char c = false ->
  (a ++ String c ra)%string = (b ++ String c rb)%string ->
  a = b /\ ra = rb.
Proof.
  intros Ha Hb Hc. revert b Hb.
  induction a as [| x a IH]; intros [| y b] Hb H; simpl in *.
  - injection H as <-. auto.
  - injection H as -> _. apply andb_prop in Hb. destruct Hb as [Hy _].
    congruence.
  - injection H as -> _. apply andb_prop in Ha. destruct Ha as [Hx _].
    congruence.
  - injection H as -> H.
    apply andb_prop in Ha. apply andb_prop in Hb.
    destruct (IH (proj2 Ha) b (proj2 Hb) H) as [-> ->]. auto.
Qed.

Lemma all_chars_string_of_uint (d : Decimal.uint) :
  all_chars number_char (NilEmpty.string_of_uint d) = true.
Proof.
  induction d; cbn [NilEmpty.string_of_uint all_chars];
    rewrite ?IHd; reflexivity.
Qed.

Lemma all_chars_str_int (z : Z) : all_chars number_char (str_int z) = true.
Proof.
  unfold str_int, NilZero.string_of_int, NilZero.string_of_uint.
  destruct (Z.to_int z) as [d | d]; destruct d;
    try reflexivity; cbn [all_chars];
    rewrite all_chars_string_of_uint; reflexivity.
Qed.

Lemma int_of_string_of_int (d : Decimal.int) :
  exists d', NilZero.int_of_string (NilZero.string_of_int d) = Some d'
             /\ Z.of_int d' = Z.of_int d.
Proof.
  destruct d as [u | u]; destruct u;
    try (eexists; split; [apply NilZero.isi; discriminate | reflexivity]).
  - exists (Decimal.Pos Decimal.zero). split; reflexivity.
  - exists (Decimal.Neg (Decimal.D0 Decimal.Nil)). split; reflexivity.
Qed.

(** [str] of an [int] can be read back. *)
Lemma str_int_inj (a b : Z) : str_int a = str_int b -> a = b.
Proof.
  unfold str_int. intros H.
  destruct (int_of_string_of_int (Z.to_int a)) as (da & Ha & Ea).
  destruct (int_of_string_of_int (Z.to_int b)) as (db & Hb & Eb).
  rewrite H, Hb in Ha. injection Ha as <-.
  rewrite DecimalZ.of_to in Ea, Eb. congruence.
Qed.

Lemma str_int_cut (a b : Z) (ra rb : string) :
  (str_int a ++ String "," ra)%string = (str_int b ++ String "," rb)%string ->
  a = b /\ ra = rb.
Proof.
  intros H.
  destruct (cut_at_delimiter (str_int a) (str_int b) ra rb ","%char
              (all_chars_str_int a) (all_chars_str_int b) eq_refl H)
    as [Hs Hr].
  split; [now apply str_int_inj | assumption].
Qed.

(** X1.  The string a row prints as shows its key: two customers that print
    alike have the same [id]; two orders that print alike have the same
    [id], [customer_id] and [status]; two items that print alike have the
    same [id], [order_id] and [product_name]. *)
Theorem repr_shows_fields :
  (forall c1 c2,
      Customer_repr c1 = Customer_repr c2 -> Customer.id c1 = Customer.id c2)
  /\ (forall o1 o2,
         Order_repr o1 = Order_repr o2 ->
         Order.id o1 = Order.id o2
         /\ Order.customer_id o1 = Order.customer_id o2
         /\ Order.status o1 = Order.status o2)
  /\ (forall i1 i2,
         OrderItem_repr i1 = OrderItem_repr i2 ->
         OrderItem.id i1 = OrderItem.id i2
         /\ OrderItem.order_id i1 = OrderItem.order_id i2
         /\ OrderItem.product_name i1 = OrderItem.product_name i2).
Proof.
  split; [| split].
  - intros c1 c2 H. unfold Customer_repr in H. cbn [append] in H.
    injection H as H. now apply str_int_cut in H.
  - intros o1 o2 H. unfold Order_repr in H. cbn [append] in H.
    injection H as H. apply str_int_cut in H. destruct H as [Hid H].
    injection H as H. apply str_int_cut in H. destruct H as [Hc H].
    injection H as H. apply append_inv_tail in H. auto.
  - intros i1 i2 H. unfold OrderItem_repr in H. cbn [append] in H.
    injection H as H. apply str_int_cut in H. destruct H as [Hid H].
    injection H as H. apply str_int_cut in H. destruct H as [Ho H].
    injection H as H. apply append_inv_tail in H. auto.
Qed.

(** X2.  On every dataset that requests can build, rows of a table that
    print alike are the same row. *)
Theorem repr_identifies_row (db : DB) :
  reachable db ->
  (forall c1 c2, In c1 (customers db) -> In c2 (customers db) ->
                 Customer_repr c1 = Customer_repr c2 -> c1 = c2)
  /\ (forall o1 o2, In o1 (orders db) -> In o2 (orders db) ->
                    Order_repr o1 = Order_repr o2 -> o1 = o2)
  /\ (forall i1 i2, In i1 (order_items db) -> In i2 (order_items db) ->
                    OrderItem_repr i1 = OrderItem_repr i2 -> i1 = i2).
Proof.
  intros Hreach. apply reachable_consistent in Hreach.
  destruct Hreach as [Hc Ho Hi _ _ _ _ _].
  split; [| split].
  - intros c1 c2 H1 H2 H.
    apply (NoDup_map_inj Customer.id (customers db)); auto.
    unfold Customer_repr in H. cbn [append] in H.
    injection H as H. now apply str_int_cut in H.
  - intros o1 o2 H1 H2 H.
    apply (NoDup_map_inj Order.id (orders db)); auto.
    unfold Order_repr in H. cbn [append] in H.
    injection H as H. now apply str_int_cut in H.
  - intros i1 i2 H1 H2 H.
    apply (NoDup_map_inj OrderItem.id (order_items db)); auto.
    unfold OrderItem_repr in H. cbn [append] in H.
    injection H as H. now apply str_int_cut in H.
Qed.

Lemma repr_identifies_row_witness :
  (forall c1 c2, In c1 (customers two_orders_db) ->
                 In c2 (customers two_orders_db) ->
                 Customer_repr c1 = Customer_repr c2 -> c1 = c2)
  /\ (forall o1 o2, In o1 (orders two_orders_db) ->
                    In o2 (orders two_orders_db) ->
                    Order_repr o1 = Order_repr o2 -> o1 = o2)
  /\ (forall i1 i2, In i1 (order_items two_orders_db) ->
                    In i2 (order_items two_orders_db) ->
                    OrderItem_repr i1 = OrderItem_repr i2 -> i1 = i2).
Proof.
  apply (repr_identifies_row two_orders_db).
  apply reachable_run. exact reachable_empty.
Defined.

(** What the rows of the sample data print as. *)
Example repr_two_orders_db :
  map Customer_repr (customers two_orders_db)
  = [ "<Customer(id=1, name='Ada', email='ada@example.com')>" ]
  /\ map Order_repr (orders two_orders_db)
     = [ "<Order(id=1, customer_id=1, status='pending')>";
         "<Order(id=2, customer_id=1, status='shipped')>" ]
  /\ map OrderItem_repr (order_items two_orders_db)
     = [ "<OrderItem(id=1, order_id=1, product='Widget')>";
         "<OrderItem(id=2, order_id=1, product='Gadget')>";
         "<OrderItem(id=3, order_id=2, product='Gizmo')>" ].
Proof. repeat split; vm_compute; reflexivity. Qed.

(** X3.  A customer's name and email are printed as they are, quotes
    included, so the printed string does not always tell them apart: moving
    the text [', email='] from the end of the name to the start of the email
    leaves it unchanged. *)
Theorem Customer_repr_ambiguous (id : Z) (name middle email : string)
    (company : option string) (created_at : Z) :
  Customer_repr
    (Customer.mk id (name ++ "', email='" ++ middle) email company created_at)
  = Customer_repr
      (Customer.mk id name (middle ++ "', email='" ++ email) company
                   created_at).
Proof.
  unfold Customer_repr. cbn [Customer.id Customer.name Customer.email].
  f_equal. f_equal. f_equal.
  rewrite !append_assoc. reflexivity.
Qed.

(** ** What the end-to-end test accepts and how it fails *)

Lemma py_getitem_dict (d : list (string * py)) (key : string) :
  py_getitem (PyDict d) key
  = match dict_get d key with
    | Some v => Ok v
    | None => Err (KeyError key)
    end.
Proof.
  unfold py_getitem, dict_get. now destruct (find _ d).
Qed.

Lemma py_getitem_Ok (container : py) (key : string) (v : py) :
  py_getitem container key = Ok v ->
  exists d, container = PyDict d /\ dict_get d key = Some v.
Proof.
  destruct container; try discriminate. rewrite py_getitem_dict.
  destruct (dict_get d key) eqn:E; [| discriminate].
  intros H. injection H as <-. eauto.
Qed.

Lemma py_in_dict (d : list (string * py)) (key : string) :
  py_in key (PyDict d)
  = Ok (match dict_get d key with Some _ => true | None => false end).
Proof.
  unfold py_in, dict_get. f_equal.
  destruct (find _ d) as [kv |] eqn:E.
  - apply find_some in E. apply existsb_exists. eauto.
  - destruct (existsb _ d) eqn:Ex; [| reflexivity].
    apply existsb_exists in Ex. destruct Ex as (kv & Hin & Hkv).
    apply (find_none _ _ E) in Hin. congruence.
Qed.

Lemma assert_in_dict (d : list (string * py)) (key msg : string) (v : py) :
  dict_get d key = Some v -> assert_in key (PyDict d) msg = Ok tt.
Proof.
  intros H. unfold assert_in. rewrite py_in_dict, H. reflexivity.
Qed.

Lemma assert_isinstance_dict (test : py -> bool) (d : list (string * py))
    (key msg : string) (v : py) :
  dict_get d key = Some v -> test v = true ->
  assert_isinstance test (PyDict d) key msg = Ok tt.
Proof.
  intros H Ht. unfold assert_isinstance.
  rewrite py_getitem_dict, H. cbn [bind]. now rewrite Ht.
Qed.

Lemma assert_isinstance_Ok (test : py -> bool) (d : list (string * py))
    (key msg : string) (u : unit) :
  assert_isinstance test (PyDict d) key msg = Ok u ->
  exists v, dict_get d key = Some v /\ test v = true.
Proof.
  unfold assert_isinstance. intros H.
  apply bind_Ok in H. destruct H as (v & Hv & H).
  apply assert_Ok in H. apply py_getitem_Ok in Hv.
  destruct Hv as (d' & Hd & Hv). injection Hd as <-. eauto.
Qed.

Lemma int_value_isinstance (v : py) (k : Z) :
  int_value v = Ok k -> isinstance_int v = true.
Proof. destruct v; simpl; congruence. Qed.

Lemma py_ge_0_isinstance (v : py) (b : bool) :
  py_ge_0 v = Ok b -> isinstance_int_float v = true.
Proof. destruct v; simpl; congruence. Qed.

Lemma assert_in_Ok (d : list (string * py)) (key msg : string) (u : unit) :
  assert_in key (PyDict d) msg = Ok u -> exists v, dict_get d key = Some v.
Proof.
  unfold assert_in. rewrite py_in_dict. cbn [bind].
  destruct (dict_get d key) as [v |]; [eauto | discriminate].
Qed.

Ltac invert_getitem :=
  repeat match goal with
    | H : py_getitem ?c ?k = Ok ?v |- _ =>
        let d := fresh "d" in
        let Hd := fresh "Hd" in
        apply py_getitem_Ok in H; destruct H as (d & Hd & H);
        first [subst c | injection Hd as <-]
    | H : assert_isinstance _ (PyDict _) _ _ = Ok _ |- _ =>
        let v := fresh "v" in
        let Hv := fresh "Hv" in
        apply assert_isinstance_Ok in H; destruct H as (v & H & Hv)
    | H1 : dict_get ?d ?k = Some ?v1, H2 : dict_get ?d ?k = Some ?v2 |- _ =>
        first [ constr_eq v1 v2; clear H2
              | rewrite H1 in H2; injection H2 as H2;
                first [subst v2 | subst v1] ]
    end.

(** X4.  The test passes exactly on the responses described by
    [e2e_accepts]: nothing else is required of a response, and nothing less
    will do. *)
Theorem e2e_passes_iff (response : Response) :
  test_orders_report_endpoint_e2e response = Ok tt <-> e2e_accepts response.
Proof.
  split.
  - unfold test_orders_report_endpoint_e2e. intros H. invert_test.
    invert_getitem.
    match goal with
    | H : response_json response = Ok _ |- _ =>
        unfold response_json in H;
        destruct (json response) as [body |] eqn:Hjson; [| discriminate];
        injection H as ->
    end.
    match goal with
    | H1 : isinstance_list ?r = true, H2 : py_first ?r = Ok _,
      H3 : py_len ?r = Ok _ |- _ =>
        destruct r as [| | | | | entries |]; try discriminate;
        destruct entries as [| first rest]; try discriminate;
        injection H2 as ->; injection H3 as <-
    end.
    match goal with
    | H1 : isinstance_str ?v = true, H2 : py_len ?v = Ok ?k, H3 : 0 < ?k,
      H4 : dict_get _ "customer_name" = Some ?v |- _ =>
        destruct v as [| | | | name | |]; try discriminate;
        injection H2 as <-
    end.
    match goal with
    | H1 : isinstance_str ?v = true,
      H4 : dict_get _ "status" = Some ?v |- _ =>
        destruct v as [| | | | status_text | |]; try discriminate
    end.
    match goal with
    | H : assert_in "order_date" _ _ = Ok _ |- _ =>
        apply assert_in_Ok in H; destruct H as (date & Hdate)
    end.
    subst. split; [assumption |].
    do 4 eexists. repeat split; try eassumption; eauto.
    exists name. split; [assumption |].
    intros ->. simpl in *. lia.
  - intros (Hstatus & data & first & rest & meta & Hjson & Hreport & Hmeta
            & (v1 & Hid & Tid) & (name & Hname & Hne)
            & (v2 & k2 & Hcount & Vcount & Pcount) & (v3 & Hdate)
            & (st & Hst) & (v4 & Htotal & Ttotal)
            & (v5 & Hto & Vto) & (v6 & Hms & Vms)
            & (v7 & k7 & Hqc & Vqc & Pqc)).
    assert (Hlen : (0 <? Z.of_nat (List.length (PyDict first :: rest))) = true)
      by (apply Z.ltb_lt; cbn [List.length]; lia).
    assert (Hnl : (0 <? Z.of_nat (String.length name)) = true).
    { apply Z.ltb_lt. destruct name; [contradiction | simpl; lia]. }
    apply Z.ltb_lt in Pcount, Pqc.
    unfold test_orders_report_endpoint_e2e, response_json.
    rewrite Hstatus, Hjson. change (200 =? 200) with true.
    unfold assert. cbn [require bind].
    repeat (progress
              (cbn [bind require isinstance_list py_len py_first];
               rewrite
                 ?py_getitem_dict, ?Hreport, ?Hmeta, ?Hname, ?Hcount,
                 ?Hto, ?Hms, ?Hqc, ?Vcount, ?Vto, ?Vms, ?Vqc, ?Hlen, ?Hnl,
                 ?Pcount, ?Pqc, ?Z.eqb_refl,
                 ?(assert_in_dict _ _ _ _ Hreport),
                 ?(assert_in_dict _ _ _ _ Hmeta),
                 ?(assert_in_dict _ _ _ _ Hid),
                 ?(assert_in_dict _ _ _ _ Hname),
                 ?(assert_in_dict _ _ _ _ Hcount),
                 ?(assert_in_dict _ _ _ _ Hdate),
                 ?(assert_in_dict _ _ _ _ Hst),
                 ?(assert_in_dict _ _ _ _ Htotal),
                 ?(assert_in_dict _ _ _ _ Hto),
                 ?(assert_in_dict _ _ _ _ Hms),
                 ?(assert_in_dict _ _ _ _ Hqc),
                 ?(assert_isinstance_dict _ _ _ _ _ Hid Tid),
                 ?(assert_isinstance_dict isinstance_str _ _ _ _ Hname
                     eq_refl),
                 ?(assert_isinstance_dict _ _ _ _ _ Hcount
                     (int_value_isinstance _ _ Vcount)),
                 ?(assert_isinstance_dict isinstance_str _ _ _ _ Hst
                     eq_refl),
                 ?(assert_isinstance_dict _ _ _ _ _ Htotal Ttotal),
                 ?(assert_isinstance_dict _ _ _ _ _ Hto
                     (int_value_isinstance _ _ Vto)),
                 ?(assert_isinstance_dict _ _ _ _ _ Hms
                     (py_ge_0_isinstance _ _ Vms)),
                 ?(assert_isinstance_dict _ _ _ _ _ Hqc
                     (int_value_isinstance _ _ Vqc)))).
    reflexivity.
Qed.

Lemma e2e_passes_iff_witness :
  test_orders_report_endpoint_e2e (response_with_query_count 1) = Ok tt
  /\ e2e_accepts (response_with_query_count 1).
Proof.
  split; [vm_compute; reflexivity |].
  apply (proj1 (e2e_passes_iff (response_with_query_count 1))).
  vm_compute. reflexivity.
Defined.

(** X5.  The first check that fails decides the outcome.  A response whose
    status is not 200 fails with "Expected 200, got <status>" whatever its
    body; a 200 response whose body does not parse raises the decoding
    error and one whose body is null or a number raises a type error; a body
    that is an object fails on the first of: no [report], no [metadata], a
    [report] that is not a list, an empty [report]. *)
Theorem e2e_failures (response : Response) :
  (status_code response <> 200 ->
   test_orders_report_endpoint_e2e response
   = Err (AssertionError
            ("Expected 200, got " ++ str_int (status_code response))))
  /\ (status_code response = 200 ->
      (json response = None ->
       test_orders_report_endpoint_e2e response = Err JSONDecodeError)
      /\ (forall v,
             json response = Some v ->
             match v with
             | PyNone | PyBool _ | PyInt _ | PyFloat _ => True
             | _ => False
             end ->
             test_orders_report_endpoint_e2e response = Err TypeError)
      /\ (forall d,
             json response = Some (PyDict d) ->
             (dict_get d "report" = None ->
              test_orders_report_endpoint_e2e response
              = Err (AssertionError "Missing report in response"))
             /\ (forall r,
                    dict_get d "report" = Some r ->
                    dict_get d "metadata" = None ->
                    test_orders_report_endpoint_e2e response
                    = Err (AssertionError "Missing metadata in response"))
             /\ (forall r m,
                    dict_get d "report" = Some r ->
                    dict_get d "metadata" = Some m ->
                    isinstance_list r = false ->
                    test_orders_report_endpoint_e2e response
                    = Err (AssertionError "Report should be a list"))
             /\ (forall m,
                    dict_get d "report" = Some (PyList []) ->
                    dict_get d "metadata" = Some m ->
                    test_orders_report_endpoint_e2e response
                    = Err (AssertionError
                             "Should return at least one order")))).
Proof.
  unfold test_orders_report_endpoint_e2e, response_json, assert_in.
  split.
  - intros H. apply Z.eqb_neq in H. rewrite H. reflexivity.
  - intros ->. cbn [Z.eqb Pos.eqb assert require bind]. split; [| split].
    + intros ->. reflexivity.
    + intros v -> Hv. destruct v; try contradiction; reflexivity.
    + intros d ->. cbn [bind]. rewrite !py_in_dict, !py_getitem_dict.
      split; [| split; [| split]].
      * intros ->. reflexivity.
      * intros r -> ->. reflexivity.
      * intros r m -> -> Hr. cbn [bind assert require]. rewrite Hr.
        reflexivity.
      * intros m -> ->. reflexivity.
Qed.

Lemma e2e_failures_witness :
  test_orders_report_endpoint_e2e (mkHTTP 503 "Service Unavailable" None)
  = Err (AssertionError "Expected 200, got 503")
  /\ test_orders_report_endpoint_e2e (mkHTTP 200 "<html>" None)
     = Err JSONDecodeError
  /\ test_orders_report_endpoint_e2e
       (mkHTTP 200 "" (Some (PyDict [ ("report", PyList []);
                                      ("metadata", metadata_json 0 1) ])))
     = Err (AssertionError "Should return at least one order").
Proof.
  split; [| split].
  - apply (proj1 (e2e_failures (mkHTTP 503 "Service Unavailable" None))).
    vm_compute. discriminate.
  - apply (proj1 (proj2 (e2e_failures (mkHTTP 200 "<html>" None)) eq_refl)).
    reflexivity.
  - apply (proj2 (proj2 (proj2
             (proj2 (proj2 (proj2 (e2e_failures
                (mkHTTP 200 ""
                   (Some (PyDict [ ("report", PyList []);
                                   ("metadata", metadata_json 0 1) ]))))
              eq_refl)) _ eq_refl)))
           (metadata_json 0 1));
      reflexivity.
Defined.

Lemma dict_get_app (pre post : list (string * py)) (k key : string) (v : py) :
  dict_get (pre ++ (k, v) :: post) key
  = match dict_get pre key with
    | Some x => Some x
    | None => if String.eqb key k then Some v else dict_get post key
    end.
Proof.
  unfold dict_get. induction pre as [| [k' v'] pre IH]; simpl.
  - destruct (String.eqb key k); reflexivity.
  - destruct (String.eqb key k'); [reflexivity | exact IH].
Qed.

(** X6.  Of the report the test reads the length and the first entry only:
    two responses that differ only in the entries after the first, with
    reports of the same length, have the same outcome, pass or fail. *)
Theorem e2e_reads_first_entry_only (pre post : list (string * py))
    (first : py) (rest rest' : list py) :
  List.length rest = List.length rest' ->
  test_orders_report_endpoint_e2e
    (response_with_report pre post (PyList (first :: rest)))
  = test_orders_report_endpoint_e2e
      (response_with_report pre post (PyList (first :: rest'))).
Proof.
  intros Hlen.
  unfold test_orders_report_endpoint_e2e, response_with_report, response_json,
    assert_in.
  cbn [status_code json Z.eqb Pos.eqb assert require bind].
  rewrite !py_in_dict, !py_getitem_dict, !dict_get_app.
  change (String.eqb "report" "report") with true.
  change (String.eqb "metadata" "report") with false.
  destruct (dict_get pre "report") as [r |]; [reflexivity |].
  cbn [bind isinstance_list py_len py_first assert require List.length].
  rewrite Hlen. reflexivity.
Qed.

Lemma e2e_reads_first_entry_only_witness :
  List.length [PyNone] = List.length [PyStr "not an order"]
  /\ test_orders_report_endpoint_e2e
       (response_with_report [] [ ("metadata", metadata_json 2 3) ]
          (PyList [entry_json; PyNone]))
     = test_orders_report_endpoint_e2e
         (response_with_report [] [ ("metadata", metadata_json 2 3) ]
            (PyList [entry_json; PyStr "not an order"]))
  /\ test_orders_report_endpoint_e2e
       (response_with_report [] [ ("metadata", metadata_json 2 3) ]
          (PyList [entry_json; PyNone]))
     = Ok tt.
Proof.
  split; [reflexivity | split; [| vm_compute; reflexivity]].
  apply (e2e_reads_first_entry_only [] [ ("metadata", metadata_json 2 3) ]
           entry_json [PyNone] [PyStr "not an order"]).
  reflexivity.
Defined.

(** ** Which inserts the store accepts *)





Lemma insert_customer_stores (now : Z) (v : Customer.values) (db db' : DB) :
  insert_customer now v db = Ok db' ->
  exists name email,
    Customer.name_ v = Some name
    /\ Customer.email_ v = Some email
    /\ (String.length name <= 100)%nat
    /\ (String.length email <= 255)%nat
    /\ (forall s, Customer.company_ v = Some s ->
                  (String.length s <= 100)%nat)
    /\ ~ In (fst (next_id (Customer.id_ v) (customers_id_seq db)))
            (customer_ids db)
    /\ ~ In email (customer_emails db)
    /\ db'
       = mkDB (customers db
                 ++ [ Customer.mk
                        (fst (next_id (Customer.id_ v) (customers_id_seq db)))
                        name email (Customer.company_ v)
                        (server_default (Customer.created_at_ v) now) ])
              (orders db) (order_items db)
              (snd (next_id (Customer.id_ v) (customers_id_seq db)))
              (orders_id_seq db) (order_items_id_seq db).
Proof.
  unfold insert_customer. intros H. invert_ok.
  destruct (next_id (Customer.id_ v) (customers_id_seq db)) as [id seq].
  invert_ok. injection H as <-. cbn [fst snd].
  match goal with
  | H1 : negb (mem_Z _ _) = true, H2 : negb (mem_string _ _) = true |- _ =>
      apply negb_mem_Z in H1; apply negb_mem_string in H2
  end.
  do 2 eexists. repeat split; eauto.
Qed.


Lemma insert_order_stores (now : Z) (v : Order.values) (db db' : DB) :
  insert_order now v db = Ok db' ->
  exists customer_id status,
    Order.customer_id_ v = Some customer_id
    /\ Order.status_ v = Some status
    /\ In status Order.status_values
    /\ ~ In (fst (next_id (Order.id_ v) (orders_id_seq db))) (order_ids db)
    /\ In customer_id (customer_ids db)
    /\ db'
       = mkDB (customers db)
              (orders db
                 ++ [ Order.mk
                        (fst (next_id (Order.id_ v) (orders_id_seq db)))
                        customer_id
                        (server_default (Order.order_date_ v) now)
                        status (Order.notes_ v) ])
              (order_items db)
              (customers_id_seq db)
              (snd (next_id (Order.id_ v) (orders_id_seq db)))
              (order_items_id_seq db).
Proof.
  unfold insert_order. intros H. invert_ok.
  destruct (next_id (Order.id_ v) (orders_id_seq db)) as [id seq].
  invert_ok. injection H as <-. cbn [fst snd].
  match goal with
  | H1 : negb (mem_Z _ _) = true, H2 : mem_Z _ _ = true,
    H3 : Order.check_status_values _ = true |- _ =>
      apply negb_mem_Z in H1; apply mem_Z_In in H2;
      apply mem_string_In in H3
  end.
  do 2 eexists. repeat split; eauto.
Qed.


Lemma insert_order_item_stores (v : OrderItem.values) (db db' : DB) :
  insert_order_item v db = Ok db' ->
  exists order_id quantity product_name unit_price,
    OrderItem.order_id_ v = Some order_id
    /\ OrderItem.product_name_ v = Some product_name
    /\ OrderItem.quantity_ v = Some quantity
    /\ OrderItem.unit_price_ v = Some unit_price
    /\ (String.length product_name <= 200)%nat
    /\ 0 < quantity
    /\ 0 <= rescale 2 unit_price < 10 ^ 10
    /\ ~ In (fst (next_id (OrderItem.id_ v) (order_items_id_seq db)))
            (order_item_ids db)
    /\ In order_id (order_ids db)
    /\ db'
       = mkDB (customers db) (orders db)
              (order_items db
                 ++ [ OrderItem.mk
                        (fst (next_id (OrderItem.id_ v)
                                      (order_items_id_seq db)))
                        order_id product_name quantity
                        (rescale 2 unit_price) ])
              (customers_id_seq db) (orders_id_seq db)
              (snd (next_id (OrderItem.id_ v) (order_items_id_seq db))).
Proof.
  unfold insert_order_item. intros H. invert_ok.
  destruct (next_id (OrderItem.id_ v) (order_items_id_seq db)) as [id seq].
  invert_ok. injection H as <-. cbn [fst snd].
  match goal with
  | H1 : negb (mem_Z _ _) = true, H2 : mem_Z _ _ = true,
    H3 : OrderItem.check_positive_quantity _ = true,
    H4 : OrderItem.check_non_negative_price _ = true,
    H5 : Z.abs _ < _ |- _ =>
      apply negb_mem_Z in H1; apply mem_Z_In in H2;
      apply Z.ltb_lt in H3; apply Z.leb_le in H4;
      change OrderItem.unit_price_scale with 2 in *;
      change OrderItem.unit_price_precision with 10 in H5
  end.
  do 4 eexists. repeat split; eauto; lia.
Qed.







(** ** Keys *)

(** X10.  On every dataset that requests can build the keys of each table
    are pairwise different, and an insert that names a key already in its
    table is rejected and leaves the store as it was. *)
Theorem primary_keys_unique (db : DB) :
  (reachable db ->
   NoDup (customer_ids db) /\ NoDup (order_ids db)
   /\ NoDup (order_item_ids db))
  /\ (forall now v i,
         Customer.id_ v = Some i -> In i (customer_ids db) ->
         (exists e, insert_customer now v db = Err e)
         /\ apply db (InsertCustomer now v) = db)
  /\ (forall now v i,
         Order.id_ v = Some i -> In i (order_ids db) ->
         (exists e, insert_order now v db = Err e)
         /\ apply db (InsertOrder now v) = db)
  /\ (forall v i,
         OrderItem.id_ v = Some i -> In i (order_item_ids db) ->
         (exists e, insert_order_item v db = Err e)
         /\ apply db (InsertOrderItem v) = db).
Proof.
  split; [| split; [| split]].
  - intros Hreach. apply reachable_consistent in Hreach.
    destruct Hreach as [Hc Ho Hi _ _ _ _ _]. auto.
  - intros now v i Hv Hin. apply (rejected (InsertCustomer now v) db).
    intros db' H. simpl in H. apply insert_customer_stores in H.
    destruct H as (n & e & _ & _ & _ & _ & _ & Hfresh & _).
    rewrite Hv in Hfresh. apply Hfresh, Hin.
  - intros now v i Hv Hin. apply (rejected (InsertOrder now v) db).
    intros db' H. simpl in H. apply insert_order_stores in H.
    destruct H as (c & s & _ & _ & _ & Hfresh & _).
    rewrite Hv in Hfresh. apply Hfresh, Hin.
  - intros v i Hv Hin. apply (rejected (InsertOrderItem v) db).
    intros db' H. simpl in H. apply insert_order_item_stores in H.
    destruct H as (o & q & p & u & _ & _ & _ & _ & _ & _ & _ & Hfresh & _).
    rewrite Hv in Hfresh. apply Hfresh, Hin.
Qed.

Lemma primary_keys_unique_witness :
  (NoDup (customer_ids two_orders_db) /\ NoDup (order_ids two_orders_db)
   /\ NoDup (order_item_ids two_orders_db))
  /\ insert_order 1003 (Order.new (Some 2) (Some 1) None (Some "pending") None)
                  two_orders_db
     = Err (UniqueViolation "orders_pkey")
  /\ (exists e,
         insert_order 1003
           (Order.new (Some 2) (Some 1) None (Some "pending") None)
           two_orders_db = Err e)
  /\ apply two_orders_db
           (InsertOrder 1003
              (Order.new (Some 2) (Some 1) None (Some "pending") None))
     = two_orders_db.
Proof.
  split; [| split; [vm_compute; reflexivity |]].
  - apply (proj1 (primary_keys_unique two_orders_db)).
    apply reachable_run. exact reachable_empty.
  - apply (proj1 (proj2 (proj2 (primary_keys_unique two_orders_db)))
                 1003 _ 2); [reflexivity | vm_compute; tauto].
Defined.

(** X11.  On every dataset that requests can build every order references a
    customer in the table and every item an order in the table; an insert of
    an order whose [customer_id] is no customer's key, or of an item whose
    [order_id] is no order's key, is rejected and leaves the store as it
    was. *)
Theorem foreign_keys_enforced (db : DB) :
  (reachable db ->
   (forall o, In o (orders db) ->
              exists c, In c (customers db)
                        /\ Customer.id c = Order.customer_id o)
   /\ (forall i, In i (order_items db) ->
                 exists o, In o (orders db)
                           /\ Order.id o = OrderItem.order_id i))
  /\ (forall now v c,
         Order.customer_id_ v = Some c -> ~ In c (customer_ids db) ->
         (exists e, insert_order now v db = Err e)
         /\ apply db (InsertOrder now v) = db)
  /\ (forall v o,
         OrderItem.order_id_ v = Some o -> ~ In o (order_ids db) ->
         (exists e, insert_order_item v db = Err e)
         /\ apply db (InsertOrderItem v) = db).
Proof.
  split; [| split].
  - intros Hreach. apply reachable_consistent in Hreach.
    destruct (foreign_keys db Hreach) as [Hfo Hfi]. split.
    + intros o Hin. apply Hfo in Hin. apply in_map_iff in Hin.
      destruct Hin as (c & Hid & Hc). eauto.
    + intros i Hin. apply Hfi in Hin. apply in_map_iff in Hin.
      destruct Hin as (o & Hid & Ho). eauto.
  - intros now v c Hv Hout. apply (rejected (InsertOrder now v) db).
    intros db' H. simpl in H. apply insert_order_stores in H.
    destruct H as (c' & s & Hc & _ & _ & _ & Hfk & _).
    rewrite Hv in Hc. injection Hc as <-. contradiction.
  - intros v o Hv Hout. apply (rejected (InsertOrderItem v) db).
    intros db' H. simpl in H. apply insert_order_item_stores in H.
    destruct H as (o' & q & p & u & Ho & _ & _ & _ & _ & _ & _ & _ & Hfk & _).
    rewrite Hv in Ho. injection Ho as <-. contradiction.
Qed.

Lemma foreign_keys_enforced_witness :
  ((forall o, In o (orders two_orders_db) ->
              exists c, In c (customers two_orders_db)
                        /\ Customer.id c = Order.customer_id o)
   /\ (forall i, In i (order_items two_orders_db) ->
                 exists o, In o (orders two_orders_db)
                           /\ Order.id o = OrderItem.order_id i))
  /\ insert_order 1003 (order_for 7 "pending") two_orders_db
     = Err (ForeignKeyViolation "orders_customer_id_fkey")
  /\ (exists e,
         insert_order 1003 (order_for 7 "pending") two_orders_db = Err e)
  /\ apply two_orders_db (InsertOrder 1003 (order_for 7 "pending"))
     = two_orders_db.
Proof.
  split; [| split; [vm_compute; reflexivity |]].
  - apply (proj1 (foreign_keys_enforced two_orders_db)).
    apply reachable_run. exact reachable_empty.
  - apply (proj1 (proj2 (foreign_keys_enforced two_orders_db))
                 1003 _ 7); [reflexivity |].
    vm_compute. intros [H | []]. discriminate.
Defined.

(** ** Deletes and how they compose with inserts *)

Lemma filter_all {A : Type} (p : A -> bool) (l : list A) :
  (forall x, In x l -> p x = true) -> filter p l = l.
Proof.
  induction l as [| a l IH]; intros H; simpl; [reflexivity |].
  rewrite (H a) by now left. f_equal. apply IH. intros x Hx. apply H.
  now right.
Qed.

Lemma filter_none {A : Type} (p : A -> bool) (l : list A) :
  (forall x, In x l -> p x = false) -> filter p l = [].
Proof.
  induction l as [| a l IH]; intros H; simpl; [reflexivity |].
  rewrite (H a) by now left. apply IH. intros x Hx. apply H. now right.
Qed.

Lemma filter_snoc_fresh {A : Type} (p : A -> bool) (l : list A) (a : A) :
  (forall x, In x l -> p x = true) -> p a = false -> filter p (l ++ [a]) = l.
Proof.
  intros Hl Ha. rewrite filter_app, (filter_all p l Hl). simpl.
  rewrite Ha. apply app_nil_r.
Qed.


Lemma not_in_ids_neq {R : Type} (pid : R -> Z) (id : Z) (l : list R) (x : R) :
  ~ In id (map pid l) -> In x l -> (pid x =? id) = false.
Proof.
  intros Hout Hin. apply Z.eqb_neq. intros <-. apply Hout. now apply in_map.
Qed.







Lemma delete_fresh_row {R : Type} (pid : R -> Z) (l : list R) (r : R) :
  ~ In (pid r) (map pid l) ->
  filter (fun x => negb (pid x =? pid r)) (l ++ [r]) = l.
Proof.
  intros Hfresh. apply filter_snoc_fresh.
  - intros x Hx. apply negb_true_iff.
    exact (not_in_ids_neq pid (pid r) l x Hfresh Hx).
  - now rewrite Z.eqb_refl.
Qed.

(** Rows that reference keys of the table [l] do not reference the fresh
    key of the row [r], so the cascade from [r] passes them by. *)
Lemma no_reference_to_fresh_row {R C : Type} (pid : R -> Z) (fk : C -> Z)
    (l : list R) (r : R) (children : list C) :
  ~ In (pid r) (map pid l) ->
  (forall c, In c children -> In (fk c) (map pid l)) ->
  forall c, In c children ->
    mem_Z (fk c) (map pid (filter (fun x => pid x =? pid r) (l ++ [r])))
    = false.
Proof.
  intros Hfresh Hfk c Hc. apply mem_Z_not_In. intros Hin.
  apply in_ids_of_matching in Hin. destruct Hin as [Heq _].
  apply Hfresh. rewrite <- Heq. now apply Hfk.
Qed.

(** X13.  On a store with referential integrity, deleting the row an insert
    has just added gives back the three tables as they were before the
    insert. *)
Theorem insert_then_delete_restores (db : DB) :
  fk_ok db ->
  (forall now v db1,
      insert_customer now v db = Ok db1 ->
      exists db2,
        delete_customer (fst (next_id (Customer.id_ v) (customers_id_seq db)))
                        db1 = Ok db2
        /\ customers db2 = customers db
        /\ orders db2 = orders db
        /\ order_items db2 = order_items db)
  /\ (forall now v db1,
         insert_order now v db = Ok db1 ->
         exists db2,
           delete_order (fst (next_id (Order.id_ v) (orders_id_seq db))) db1
           = Ok db2
           /\ customers db2 = customers db
           /\ orders db2 = orders db
           /\ order_items db2 = order_items db)
  /\ (forall v db1,
         insert_order_item v db = Ok db1 ->
         exists db2,
           delete_order_item
             (fst (next_id (OrderItem.id_ v) (order_items_id_seq db))) db1
           = Ok db2
           /\ customers db2 = customers db
           /\ orders db2 = orders db
           /\ order_items db2 = order_items db).
Proof.
  intros [Hfo Hfi]. split; [| split].
  - intros now v db1 H. apply insert_customer_stores in H.
    destruct H as (n & e & _ & _ & _ & _ & _ & Hfresh & _ & ->).
    set (c := Customer.mk _ n e _ _).
    change (fst (next_id (Customer.id_ v) (customers_id_seq db)))
      with (Customer.id c) in Hfresh |- *.
    destruct (delete_customers_where_Ok
                (fun x => Customer.id x =? Customer.id c)
                (mkDB (customers db ++ [c]) (orders db) (order_items db)
                      (snd (next_id (Customer.id_ v) (customers_id_seq db)))
                      (orders_id_seq db) (order_items_id_seq db)))
      as (db2 & Hdel & Ecs & Eos & Eis).
    cbn [customers orders order_items] in Ecs, Eos, Eis.
    exists db2. split; [exact Hdel |].
    pose proof (no_reference_to_fresh_row Customer.id Order.customer_id
                  (customers db) c (orders db) Hfresh Hfo) as Hnone.
    rewrite Ecs, Eos, Eis. split; [| split].
    + now apply (delete_fresh_row Customer.id).
    + apply filter_all. intros o Ho. now rewrite (Hnone o Ho).
    + rewrite (filter_none _ (orders db)) by exact Hnone.
      apply filter_all. reflexivity.
  - intros now v db1 H. apply insert_order_stores in H.
    destruct H as (cid & s & _ & _ & _ & Hfresh & _ & ->).
    set (o := Order.mk _ cid _ s _).
    change (fst (next_id (Order.id_ v) (orders_id_seq db)))
      with (Order.id o) in Hfresh |- *.
    destruct (delete_orders_where_Ok
                (fun x => Order.id x =? Order.id o)
                (mkDB (customers db) (orders db ++ [o]) (order_items db)
                      (customers_id_seq db)
                      (snd (next_id (Order.id_ v) (orders_id_seq db)))
                      (order_items_id_seq db)))
      as (db2 & Hdel & Ecs & Eos & Eis).
    cbn [customers orders order_items] in Ecs, Eos, Eis.
    exists db2. split; [exact Hdel |].
    pose proof (no_reference_to_fresh_row Order.id OrderItem.order_id
                  (orders db) o (order_items db) Hfresh Hfi) as Hnone.
    rewrite Ecs, Eos, Eis. split; [reflexivity | split].
    + now apply (delete_fresh_row Order.id).
    + apply filter_all. intros i Hi. now rewrite (Hnone i Hi).
  - intros v db1 H. apply insert_order_item_stores in H.
    destruct H as (oid & q & p & u & _ & _ & _ & _ & _ & _ & _ & Hfresh & _
                   & ->).
    set (i := OrderItem.mk _ oid p q _).
    change (fst (next_id (OrderItem.id_ v) (order_items_id_seq db)))
      with (OrderItem.id i) in Hfresh |- *.
    eexists. split; [reflexivity |].
    cbn [customers orders order_items]. split; [reflexivity |].
    split; [reflexivity |].
    now apply (delete_fresh_row OrderItem.id).
Qed.

Lemma insert_then_delete_restores_witness :
  fk_ok two_orders_db
  /\ insert_customer 2000
       (Customer.new None (Some "Bob") (Some "bob@example.com") None None)
       two_orders_db
     = Ok (mkDB (customers two_orders_db
                   ++ [ Customer.mk 2 "Bob" "bob@example.com" None 2000 ])
                (orders two_orders_db) (order_items two_orders_db) 3 3 4)
  /\ exists db2,
       delete_customer 2
         (mkDB (customers two_orders_db
                  ++ [ Customer.mk 2 "Bob" "bob@example.com" None 2000 ])
               (orders two_orders_db) (order_items two_orders_db) 3 3 4)
       = Ok db2
       /\ customers db2 = customers two_orders_db
       /\ orders db2 = orders two_orders_db
       /\ order_items db2 = order_items two_orders_db.
Proof.
  split; [exact fk_ok_two_orders_db | split; [vm_compute; reflexivity |]].
  apply (proj1 (insert_then_delete_restores two_orders_db
                  fk_ok_two_orders_db)
               2000
               (Customer.new None (Some "Bob") (Some "bob@example.com")
                             None None)).
  vm_compute. reflexivity.
Defined.

(** ** Keys drawn from the sequences *)

Lemma in_ids_filter {R : Type} (pid : R -> Z) (p : R -> bool) (l : list R)
    (i : Z) :
  In i (map pid (filter p l)) -> In i (map pid l).
Proof.
  rewrite !in_map_iff. intros (r & Hid & Hr). apply filter_In in Hr.
  exists r. tauto.
Qed.

Lemma in_ids_snoc (l : list Z) (new i bound : Z) :
  (forall j, In j l -> j < bound) -> In i (l ++ [new]) -> new = bound ->
  i < bound + 1.
Proof.
  intros Hl Hin ->. apply in_app_or in Hin.
  destruct Hin as [Hin | [<- | []]]; [apply Hl in Hin |]; lia.
Qed.

Lemma ids_below_seq_exec (r : request) (db db' : DB) :
  auto_request r = true -> ids_below_seq db -> exec r db = Ok db' ->
  ids_below_seq db'.
Proof.
  intros Hauto (Hc & Ho & Hi) H.
  destruct r as [now v | now v | v | id | id | id]; simpl in Hauto, H.
  - apply insert_customer_stores in H.
    destruct H as (n & e & _ & _ & _ & _ & _ & _ & _ & ->).
    destruct (Customer.id_ v); [discriminate |].
    repeat split; auto. unfold customer_ids. cbn. rewrite map_app.
    intros i Hin. eapply in_ids_snoc; eauto.
  - apply insert_order_stores in H.
    destruct H as (c & s & _ & _ & _ & _ & _ & ->).
    destruct (Order.id_ v); [discriminate |].
    repeat split; auto. unfold order_ids. cbn. rewrite map_app.
    intros i Hin. eapply in_ids_snoc; eauto.
  - apply insert_order_item_stores in H.
    destruct H as (o & q & p & u & _ & _ & _ & _ & _ & _ & _ & _ & _ & ->).
    destruct (OrderItem.id_ v); [discriminate |].
    repeat split; auto. unfold order_item_ids. cbn. rewrite map_app.
    intros i Hin. eapply in_ids_snoc; eauto.
  - unfold delete_customer, delete_customers_where, drop_orders,
      on_parent_delete, Order.customer_id_ondelete,
      OrderItem.order_id_ondelete in H.
    cbn [bind] in H. injection H as <-.
    unfold ids_below_seq, customer_ids, order_ids, order_item_ids. cbn.
    repeat split; intros i Hin; apply in_ids_filter in Hin; auto.
  - unfold delete_order, delete_orders_where, drop_orders,
      on_parent_delete, OrderItem.order_id_ondelete in H.
    cbn [bind] in H. injection H as <-.
    unfold ids_below_seq, customer_ids, order_ids, order_item_ids. cbn.
    repeat split; auto; intros i Hin; apply in_ids_filter in Hin; auto.
  - unfold delete_order_item, delete_order_items_where in H.
    injection H as <-.
    unfold ids_below_seq, customer_ids, order_ids, order_item_ids. cbn.
    repeat split; auto; intros i Hin; apply in_ids_filter in Hin; auto.
Qed.

Lemma ids_below_seq_run (rs : list request) (db : DB) :
  forallb auto_request rs = true -> ids_below_seq db ->
  ids_below_seq (run rs db).
Proof.
  revert db. induction rs as [| r rs IH]; intros db Hauto Hdb; simpl;
    [assumption |].
  simpl in Hauto. apply andb_prop in Hauto. destruct Hauto as [Hr Hrs].
  apply IH; [assumption |]. unfold apply.
  destruct (exec r db) as [db' | e] eqn:E; [| assumption].
  eapply ids_below_seq_exec; eassumption.
Qed.

(** X14.  As long as no insert names a key of its own, every stored key lies
    below its table's sequence, so the key the store draws next is not in
    the table: such an insert is never rejected for its key. *)
Theorem sequence_keys_are_fresh (rs : list request) :
  forallb auto_request rs = true ->
  ids_below_seq (run rs empty_db)
  /\ ~ In (customers_id_seq (run rs empty_db))
          (customer_ids (run rs empty_db))
  /\ ~ In (orders_id_seq (run rs empty_db)) (order_ids (run rs empty_db))
  /\ ~ In (order_items_id_seq (run rs empty_db))
          (order_item_ids (run rs empty_db)).
Proof.
  intros Hauto.
  assert (H : ids_below_seq (run rs empty_db)).
  { apply ids_below_seq_run; [assumption |].
    repeat split; intros i []. }
  split; [exact H |]. destruct H as (Hc & Ho & Hi).
  repeat split; intros Hin;
    [apply Hc in Hin | apply Ho in Hin | apply Hi in Hin]; lia.
Qed.

Lemma sequence_keys_are_fresh_witness :
  forallb auto_request two_orders = true
  /\ ids_below_seq (run two_orders empty_db)
  /\ ~ In (customers_id_seq (run two_orders empty_db))
          (customer_ids (run two_orders empty_db))
  /\ ~ In (orders_id_seq (run two_orders empty_db))
          (order_ids (run two_orders empty_db))
  /\ ~ In (order_items_id_seq (run two_orders empty_db))
          (order_item_ids (run two_orders empty_db)).
Proof.
  split; [reflexivity |].
  apply (sequence_keys_are_fresh two_orders). reflexivity.
Defined.

(** A key chosen by the client can run into the sequence: after an insert
    that names key 1 the sequence still stands at 1, and the next insert
    that leaves the key out is rejected. *)
Example chosen_key_blocks_sequence :
  insert_customer 1000
    (Customer.new (Some 1) (Some "Ada") (Some "ada@example.com") None None)
    empty_db
  = Ok (mkDB [ Customer.mk 1 "Ada" "ada@example.com" None 1000 ] [] [] 1 1 1)
  /\ insert_customer 1001
       (Customer.new None (Some "Bob") (Some "bob@example.com") None None)
       (mkDB [ Customer.mk 1 "Ada" "ada@example.com" None 1000 ] [] []
             1 1 1)
     = Err (UniqueViolation "customers_pkey").
Proof. split; vm_compute; reflexivity. Qed.

(** ** Relationships *)

Lemma find_by_key {R : Type} (pid : R -> Z) (l : list R) (r : R) :
  NoDup (map pid l) -> In r l ->
  find (fun x => pid x =? pid r) l = Some r.
Proof.
  intros Hnd Hin.
  destruct (find (fun x => pid x =? pid r) l) as [x |] eqn:E.
  - apply find_some in E. destruct E as [Hx Heq]. apply Z.eqb_eq in Heq.
    f_equal. exact (NoDup_map_inj pid l x r Hnd Hx Hin Heq).
  - apply (find_none _ _ E) in Hin. rewrite Z.eqb_refl in Hin. discriminate.
Qed.

(** X15.  On every dataset that requests can build the two ends of each
    relationship agree: an order is among a customer's orders exactly when
    that customer is the order's customer, an item is among an order's items
    exactly when that order is the item's order, and every order has a
    customer and every item an order. *)
Theorem relationships_populate_back (db : DB) :
  reachable db ->
  (forall c o, In c (customers db) -> In o (orders db) ->
               (In o (Customer_orders c db) <-> related_customer o db = Some c))
  /\ (forall o i, In o (orders db) -> In i (order_items db) ->
                  (In i (related_items o db) <-> OrderItem_order i db = Some o))
  /\ (forall o, In o (orders db) -> exists c, related_customer o db = Some c)
  /\ (forall i, In i (order_items db) ->
                exists o, OrderItem_order i db = Some o).
Proof.
  intros Hreach. apply reachable_consistent in Hreach.
  destruct Hreach as [Hc Ho _ _ [Hfo Hfi] _ _ _].
  unfold Customer_orders, related_customer, related_items, OrderItem_order.
  split; [| split; [| split]].
  - intros c o Hin Hino. rewrite filter_In, Z.eqb_eq. split.
    + intros [_ Heq]. rewrite Heq. now apply find_by_key.
    + intros Hf. apply find_some in Hf. destruct Hf as [_ Hf].
      apply Z.eqb_eq in Hf. auto.
  - intros o i Hin Hini. rewrite filter_In, Z.eqb_eq. split.
    + intros [_ Heq]. rewrite Heq. now apply find_by_key.
    + intros Hf. apply find_some in Hf. destruct Hf as [_ Hf].
      apply Z.eqb_eq in Hf. auto.
  - intros o Hin. apply Hfo in Hin. apply in_map_iff in Hin.
    destruct Hin as (c & Heq & Hin). exists c. rewrite <- Heq.
    now apply find_by_key.
  - intros i Hin. apply Hfi in Hin. apply in_map_iff in Hin.
    destruct Hin as (o & Heq & Hin). exists o. rewrite <- Heq.
    now apply find_by_key.
Qed.

Lemma relationships_populate_back_witness :
  (forall c o, In c (customers two_orders_db) -> In o (orders two_orders_db) ->
               (In o (Customer_orders c two_orders_db)
                <-> related_customer o two_orders_db = Some c))
  /\ (forall o i, In o (orders two_orders_db) ->
                  In i (order_items two_orders_db) ->
                  (In i (related_items o two_orders_db)
                   <-> OrderItem_order i two_orders_db = Some o))
  /\ (forall o, In o (orders two_orders_db) ->
                exists c, related_customer o two_orders_db = Some c)
  /\ (forall i, In i (order_items two_orders_db) ->
                exists o, OrderItem_order i two_orders_db = Some o).
Proof.
  apply (relationships_populate_back two_orders_db).
  apply reachable_run. exact reachable_empty.
Defined.

Lemma sum_over_add {A : Type} (f g : A -> nat) (l : list A) :
  sum_over (fun x => (f x + g x)%nat) l = (sum_over f l + sum_over g l)%nat.
Proof. induction l as [| a l IH]; simpl; [reflexivity | rewrite IH; lia]. Qed.

Lemma sum_over_ext {A : Type} (f g : A -> nat) (l : list A) :
  (forall x, f x = g x) -> sum_over f l = sum_over g l.
Proof.
  intros H. induction l as [| a l IH]; simpl; [reflexivity |].
  now rewrite H, IH.
Qed.

Lemma sum_over_zero {A : Type} (f : A -> nat) (l : list A) :
  (forall x, In x l -> f x = 0%nat) -> sum_over f l = 0%nat.
Proof.
  induction l as [| a l IH]; intros H; simpl; [reflexivity |].
  rewrite (H a) by now left. apply IH. intros x Hx. apply H. now right.
Qed.

(** Among rows with pairwise different keys exactly one has a given key of
    the table. *)
Lemma one_row_per_key {R : Type} (pid : R -> Z) (l : list R) (k : Z) :
  NoDup (map pid l) -> In k (map pid l) ->
  sum_over (fun r => if k =? pid r then 1%nat else 0%nat) l = 1%nat.
Proof.
  induction l as [| r l IH]; simpl; intros Hnd Hin; [contradiction |].
  apply NoDup_cons_iff in Hnd. destruct Hnd as [Hfresh Hnd].
  destruct (Z.eqb_spec k (pid r)) as [-> | Hne].
  - rewrite sum_over_zero; [reflexivity |].
    intros x Hx. destruct (Z.eqb_spec (pid r) (pid x)) as [Heq | _];
      [| reflexivity].
    exfalso. apply Hfresh. rewrite Heq. now apply in_map.
  - destruct Hin as [Heq | Hin]; [congruence |]. simpl. now apply IH.
Qed.

Lemma children_partitioned {R C : Type} (pid : R -> Z) (fk : C -> Z)
    (parents : list R) (children : list C) :
  NoDup (map pid parents) ->
  (forall c, In c children -> In (fk c) (map pid parents)) ->
  sum_over (fun r => List.length (filter (fun c => fk c =? pid r) children))
           parents
  = List.length children.
Proof.
  intros Hnd. induction children as [| c children IH]; intros Hfk.
  - simpl. apply sum_over_zero. reflexivity.
  - transitivity
      (sum_over
         (fun r =>
            ((if (fk c =? pid r)%Z then 1 else 0)
             + List.length
                 (filter (fun c => (fk c =? pid r)%Z) children))%nat)
         parents).
    + apply sum_over_ext. intros r. simpl.
      destruct (fk c =? pid r); reflexivity.
    + rewrite sum_over_add, IH by (intros x Hx; apply Hfk; now right).
      rewrite one_row_per_key; [reflexivity | assumption |].
      apply Hfk. now left.
Qed.

(** X16.  On every dataset that requests can build every item is among the
    items of exactly one order and every order among the orders of exactly
    one customer: the items of all orders add up to the items table, and the
    orders of all customers to the orders table. *)
Theorem relationships_partition (db : DB) :
  reachable db ->
  sum_over (fun o => List.length (related_items o db)) (orders db)
  = List.length (order_items db)
  /\ sum_over (fun c => List.length (Customer_orders c db)) (customers db)
     = List.length (orders db).
Proof.
  intros Hreach. apply reachable_consistent in Hreach.
  destruct Hreach as [Hc Ho _ _ [Hfo Hfi] _ _ _].
  unfold related_items, Customer_orders. split.
  - now apply (children_partitioned Order.id OrderItem.order_id).
  - now apply (children_partitioned Customer.id Order.customer_id).
Qed.

Lemma relationships_partition_witness :
  sum_over (fun o => List.length (related_items o two_orders_db))
           (orders two_orders_db)
  = List.length (order_items two_orders_db)
  /\ sum_over (fun c => List.length (Customer_orders c two_orders_db))
              (customers two_orders_db)
     = List.length (orders two_orders_db).
Proof.
  apply (relationships_partition two_orders_db).
  apply reachable_run. exact reachable_empty.
Defined.
